(** * libgdf hash-based group-by: dispatch and AVG composition

    A shallow embedding of [src/groupby/groupby.cuh]: the two-level
    run-time type dispatch ([dispatch_groupby_type],
    [dispatch_aggregation_type]), the single-pass executor
    ([dispatched_groupby]), and the COUNT/SUM composition of AVG
    ([create_gdf_column], [compute_average], [multi_pass_avg],
    [gdf_group_by_hash_avg]).

    - Device memory is an explicit store of blocks; every device
      operation ([cudaMalloc], [cudaFree], the hash-aggregation primitive,
      [thrust::transform]) is logged in a trace.
    - The primitive [GroupbyHash], declared in
      [hash/groupby_compute_api.h] and implemented elsewhere, is a section
      variable: a function of the device and of the call.
    - Template parameters become ordinary arguments ([ctype],
      [aggregation_operation]).
    - A [gdf_column] behind a pointer is passed by value and handed back
      with the error code; the columns of one call are distinct structs.
    - [assert] and a read past the end of a caller's array stop the run
      with a [fault].
    - Element counts ([gdf_size_type], [size_t]) are natural numbers;
      element values are integers with the wrap-around of their type, or
      IEEE binary32/binary64 numbers ([spec_float]). *)

From Stdlib Require Import ZArith Bool List Lia.
From Stdlib Require Import Floats.SpecFloat.
From stdpp Require Import base option list gmap.

Local Open Scope Z_scope.

(** ** Enumerations *)

(** Modelled from the spec: the enum [gdf_dtype] is declared in [gdf/gdf.h],
    which is not part of the sources at hand.  The six tags the switches
    name are constructors; [GDF_other] stands for every other enumerator
    ([GDF_invalid], the date and timestamp tags, ...). *)
Inductive gdf_dtype : Type :=
  | GDF_INT8 | GDF_INT16 | GDF_INT32 | GDF_INT64
  | GDF_FLOAT32 | GDF_FLOAT64
  | GDF_other (tag : nat).

(** Modelled from the spec: [gdf_error], also from [gdf/gdf.h]; only the
    four codes this file returns. *)
Inductive gdf_error : Type :=
  | GDF_SUCCESS
  | GDF_CUDA_ERROR
  | GDF_UNSUPPORTED_DTYPE
  | GDF_GROUPBY_TOO_MANY_COLUMNS.

(** The aggregation functors of [hash/aggregation_operations.cuh], used
    here only as template arguments. *)
Inductive aggregation_operation : Type :=
  | count_op | sum_op | min_op | max_op.

(** The element types the templates are instantiated at. *)
Inductive ctype : Type :=
  | int8_t | uint8_t | int16_t | uint16_t
  | int32_t | uint32_t | int64_t | uint64_t
  | float | double.

(** [size_t] on the LP64 targets the library is built for. *)
Definition size_t : ctype := uint64_t.

#[global] Instance gdf_dtype_eq_dec : EqDecision gdf_dtype.
Proof. solve_decision. Defined.
#[global] Instance gdf_error_eq_dec : EqDecision gdf_error.
Proof. solve_decision. Defined.
#[global] Instance aggregation_operation_eq_dec : EqDecision aggregation_operation.
Proof. solve_decision. Defined.
#[global] Instance ctype_eq_dec : EqDecision ctype.
Proof. solve_decision. Defined.

(** [is_same_functor<count_op, op>::value] *)
Definition is_same_functor (a b : aggregation_operation) : bool :=
  bool_decide (a = b).

(** ** Scalars *)

Module Scalar.

(** A scalar as stored in a device buffer. *)
Inductive value : Type :=
  | VI (z : Z)
  | VF32 (f : spec_float)
  | VF64 (f : spec_float).

Definition is_floating (t : ctype) : bool :=
  match t with float | double => true | _ => false end.

Definition is_signed (t : ctype) : bool :=
  match t with
  | uint8_t | uint16_t | uint32_t | uint64_t => false
  | _ => true
  end.

Definition bits (t : ctype) : Z :=
  match t with
  | int8_t | uint8_t => 8
  | int16_t | uint16_t => 16
  | int32_t | uint32_t | float => 32
  | int64_t | uint64_t | double => 64
  end.

Definition sizeof (t : ctype) : nat := Z.to_nat (bits t / 8).

Definition min_int (t : ctype) : Z :=
  if is_signed t then - 2 ^ (bits t - 1) else 0.

Definition max_int (t : ctype) : Z :=
  if is_signed t then 2 ^ (bits t - 1) - 1 else 2 ^ bits t - 1.

(** Conversion of an integer to an integral type: reduction modulo
    [2 ^ bits]. *)
Definition wrap (t : ctype) (z : Z) : Z :=
  if is_signed t
  then (z + 2 ^ (bits t - 1)) mod 2 ^ bits t - 2 ^ (bits t - 1)
  else z mod 2 ^ bits t.

(** IEEE binary32 and binary64. *)
Definition prec (t : ctype) : Z := if decide (t = double) then 53 else 24.
Definition emax (t : ctype) : Z := if decide (t = double) then 1024 else 128.

Definition of_float (t : ctype) (f : spec_float) : value :=
  if decide (t = double) then VF64 f else VF32 f.

(** Integer to floating point: round to nearest, ties to even. *)
Definition float_of_Z (t : ctype) (z : Z) : spec_float :=
  binary_normalize (prec t) (emax t) z 0 false.

(** Floating point to floating point. *)
Definition float_of_float (t : ctype) (f : spec_float) : spec_float :=
  match f with
  | S754_finite s m e =>
      binary_normalize (prec t) (emax t) (cond_Zopp s (Z.pos m)) e s
  | _ => f
  end.

(** Floating point to integer: the fractional part is discarded; not
    defined on infinities and NaN. *)
Definition Z_of_float (f : spec_float) : option Z :=
  match f with
  | S754_zero _ => Some 0
  | S754_finite s m e =>
      Some (cond_Zopp s
              (if 0 <=? e then Z.pos m * 2 ^ e else Z.pos m / 2 ^ (- e)))
  | _ => None
  end.

(** The type of a floating scalar; an integer cell does not record the
    integral type it was written at. *)
Definition type_of (v : value) : option ctype :=
  match v with
  | VI _ => None
  | VF32 _ => Some float
  | VF64 _ => Some double
  end.

(** A stored scalar read at type [t].  An integer cell read at an
    integral type gives the number at that type; a cell of another kind
    than [t] is a reinterpretation of bits, which has no value here. *)
Definition load (t : ctype) (c : option value) : option value :=
  match c with
  | Some (VI z) => if is_floating t then None else Some (VI (wrap t z))
  | Some (VF32 f) => if decide (t = float) then Some (VF32 f) else None
  | Some (VF64 f) => if decide (t = double) then Some (VF64 f) else None
  | None => None
  end.

(** Conversion of a scalar to type [t] ([static_cast] and the implicit
    conversions).  Narrowing between integral types wraps; a floating
    value converted to its own type is unchanged; a floating value out of
    the range of an integral [t] has no defined result. *)
Definition convert (t : ctype) (v : value) : option value :=
  match v with
  | VI z =>
      if is_floating t then Some (of_float t (float_of_Z t z))
      else Some (VI (wrap t z))
  | VF32 f | VF64 f =>
      if decide (type_of v = Some t) then Some v
      else if is_floating t then Some (of_float t (float_of_float t f))
      else
        z ← Z_of_float f;
        if decide (min_int t <= z <= max_int t) then Some (VI z) else None
  end.

(** [v] is a scalar of type [t]. *)
Definition has_type (t : ctype) (v : value) : Prop :=
  match v with
  | VI z => is_floating t = false ∧ min_int t <= z <= max_int t
  | _ => type_of v = Some t
  end.

(** Integral promotion: every type narrower than [int] becomes [int]. *)
Definition promote (t : ctype) : ctype :=
  match t with
  | int8_t | uint8_t | int16_t | uint16_t => int32_t
  | _ => t
  end.

(** The usual arithmetic conversions: the type in which a binary
    operator on operands of types [a] and [b] is evaluated. *)
Definition common_type (a b : ctype) : ctype :=
  if decide (a = double ∨ b = double) then double
  else if decide (a = float ∨ b = float) then float
  else
    let a' := promote a in
    let b' := promote b in
    if decide (a' = uint64_t ∨ b' = uint64_t) then uint64_t
    else if decide (a' = int64_t ∨ b' = int64_t) then int64_t
    else if decide (a' = uint32_t ∨ b' = uint32_t) then uint32_t
    else int32_t.

(** [a / b] evaluated in type [t] (a result of [common_type]).  Integer
    division truncates; a zero divisor and the overflowing quotient
    [min / -1] have no defined result. *)
Definition divide (t : ctype) (a b : value) : option value :=
  match a, b with
  | VI x, VI y =>
      if is_floating t then None
      else if decide (y = 0) then None
      else if decide (min_int t <= Z.quot x y <= max_int t)
           then Some (VI (Z.quot x y)) else None
  | VF32 x, VF32 y =>
      if decide (t = float) then Some (VF32 (SFdiv 24 128 x y)) else None
  | VF64 x, VF64 y =>
      if decide (t = double) then Some (VF64 (SFdiv 53 1024 x y)) else None
  | _, _ => None
  end.

End Scalar.

(** ** Columns and device memory *)

(** Device pointers name blocks. *)
Abbreviation ptr := positive.

(** One element of a device buffer; [None] is an indeterminate element
    (never written, or written by an operation without defined result). *)
Abbreviation cell := (option Scalar.value).
Abbreviation buffer := (list (option Scalar.value)).

(** [gdf_column], with the fields this file reads or writes ([dtype_info]
    is only initialised, never read). *)
Record gdf_column : Type := mk_column {
  data : ptr;
  valid : option ptr;
  size : nat;
  dtype : gdf_dtype
}.

Definition set_size (n : nat) (c : gdf_column) : gdf_column :=
  {| data := data c; valid := valid c; size := n; dtype := dtype c |}.

(** The arguments of one invocation of the hash-aggregation primitive,
    template arguments included. *)
Record call : Type := mk_call {
  call_groupby_type : ctype;
  call_aggregation_type : ctype;
  call_op : aggregation_operation;
  in_group_col : ptr;
  in_agg_col : ptr;
  in_size : nat;
  out_group_col : ptr;
  out_agg_col : ptr;
  sort_result : bool
}.

(** What the primitive reports: on success the groups it found, key and
    aggregate ([out_size] is their number); on failure whatever it left
    in the two output buffers. *)
Inductive reply : Type :=
  | cudaSuccess (groups : list (Scalar.value * Scalar.value))
  | cudaFailure (keys vals : buffer).

Definition out_size (groups : list (Scalar.value * Scalar.value)) : nat :=
  length groups.

(** What the device is asked to do, in the order it is asked. *)
Inductive event : Type :=
  | Malloc (p : ptr) (bytes : nat)
  | Free (p : ptr)
  | Hash (c : call) (r : reply)
  | Transform (sum_type avg_type : ctype) (d_sums d_counts d_avg : ptr) (n : nat).

Arguments Malloc p%_positive bytes%_nat.
Arguments Free p%_positive.
Arguments Transform sum_type avg_type (d_sums d_counts d_avg)%_positive n%_nat.

(** The device: its live blocks and its history. *)
Record device : Type := mk_device {
  heap : gmap ptr buffer;
  trace : list event
}.

Definition log (e : event) (h : gmap ptr buffer) (d : device) : device :=
  {| heap := h; trace := trace d ++ [e] |}.

(** Elements written through a pointer land on the elements already
    there; a write past the end of the buffer is outside the model and
    dropped. *)
Definition overwrite (src dst : buffer) : buffer :=
  imap (λ i old, default old (src !! i)) dst.

(** A write through [p]; through a pointer to no live block it is lost. *)
Definition store (p : ptr) (src : buffer) (h : gmap ptr buffer) : gmap ptr buffer :=
  alter (overwrite src) p h.

(** Element [i] of the block at [p]; indeterminate outside a live block. *)
Definition fetch (p : ptr) (i : nat) (h : gmap ptr buffer) : cell :=
  b ← h !! p; mjoin (b !! i).

Definition is_malloc (e : event) : bool :=
  match e with Malloc _ _ => true | _ => false end.
Definition is_free (e : event) : bool :=
  match e with Free _ => true | _ => false end.

(** The counters of an allocation-tracking double. *)
Definition allocations (t : list event) : nat := length (filter is_malloc t).
Definition deallocations (t : list event) : nat := length (filter is_free t).

(** Device memory after the primitive has answered [r] to call [c]: the
    keys go through [out_group_col], the aggregates through
    [out_agg_col]. *)
Definition written (c : call) (r : reply) (h : gmap ptr buffer) : gmap ptr buffer :=
  match r with
  | cudaSuccess groups =>
      store (out_agg_col c) (Some <$> groups.*2)
        (store (out_group_col c) (Some <$> groups.*1) h)
  | cudaFailure keys vals =>
      store (out_agg_col c) vals (store (out_group_col c) keys h)
  end.

(** ** Computations on the device *)

Inductive fault : Type :=
  | AssertionFailed     (* a failed [assert]: the process aborts *)
  | OutOfBounds.        (* a read past the end of a caller's array *)

Inductive outcome (A : Type) : Type :=
  | Done (a : A)
  | Halt (f : fault).
Arguments Done {A} a.
Arguments Halt {A} f.

Definition M (A : Type) : Type := device → outcome A * device.

Definition ret {A} (a : A) : M A := λ d, (Done a, d).

Definition bind {A B} (m : M A) (k : A → M B) : M B :=
  λ d, match m d with
       | (Done a, d') => k a d'
       | (Halt f, d') => (Halt f, d')
       end.

Definition halt {A} (f : fault) : M A := λ d, (Halt f, d).

Notation "x <~ m ;; k" := (bind m (λ x, k))
  (at level 100, m at next level, right associativity).
Notation "m ;;; k" := (bind m (λ _, k))
  (at level 100, right associativity).

(** [a[0]] on an array of column pointers. *)
Definition first_column (a : list gdf_column) : M gdf_column :=
  match a with
  | c :: _ => ret c
  | [] => halt OutOfBounds
  end.

(** [cudaMalloc]: a block not in use, contents indeterminate.  Its status
    is discarded by the only caller; the model covers the runs in which
    the device has memory left, and records the byte count as a natural
    number, without the wrap-around of a [size_t] product. *)
Definition cudaMalloc (n : nat) (t : ctype) : M ptr :=
  λ d, let p := fresh (dom (heap d)) in
       (Done p, log (Malloc p (n * Scalar.sizeof t))
                    (<[p := replicate n None]> (heap d)) d).

Definition cudaFree (p : ptr) : M unit :=
  λ d, (Done tt, log (Free p) (delete p (heap d)) d).

(** Results a call returns next to its error code: the columns behind
    the [out_groupby_columns] and [out_aggregation_column] pointers. *)
Record outputs : Type := mk_outputs {
  err : gdf_error;
  groupby_out : list gdf_column;
  aggregation_out : gdf_column
}.

(** The tag a [gdf_column] of a given element type carries
    ([create_gdf_column]'s chain of [std::is_same] tests). *)
Definition gdf_col_type (col_type : ctype) : gdf_dtype :=
  match col_type with
  | int8_t => GDF_INT8
  | uint8_t => GDF_INT8
  | int16_t => GDF_INT16
  | uint16_t => GDF_INT16
  | int32_t => GDF_INT32
  | uint32_t => GDF_INT32
  | int64_t => GDF_INT64
  | uint64_t => GDF_INT64
  | float => GDF_FLOAT32
  | double => GDF_FLOAT64
  end.

(** The lambda of [compute_average]:
    [(sum_type sum, size_t count) -> avg_type { return sum / static_cast<avg_type>(count); }] *)
Definition average_op (sum_type avg_type : ctype) (sum count : Scalar.value)
  : option Scalar.value :=
  c ← Scalar.convert avg_type count;
  let t := Scalar.common_type sum_type avg_type in
  a ← Scalar.convert t sum;
  b ← Scalar.convert t c;
  q ← Scalar.divide t a b;
  Scalar.convert avg_type q.

Definition average_cell (sum_type avg_type : ctype) (sum count : cell) : cell :=
  s ← Scalar.load sum_type sum;
  c ← Scalar.load size_t count;
  average_op sum_type avg_type s c.

(** [thrust::transform(d_sums, d_sums + n, d_counts, d_avg, average_op)] *)
Definition transform (sum_type avg_type : ctype)
    (d_sums : ptr) (n : nat) (d_counts d_avg : ptr) : M unit :=
  λ d,
    let h := heap d in
    let result :=
      (λ i, average_cell sum_type avg_type (fetch d_sums i h) (fetch d_counts i h))
        <$> seq 0 n in
    (Done tt, log (Transform sum_type avg_type d_sums d_counts d_avg n)
                  (store d_avg result h) d).

Definition compute_average (sum_type avg_type : ctype)
    (avg_column count_column sum_column : gdf_column) : M gdf_column :=
  let output_size := size count_column in
  transform sum_type avg_type (data sum_column) output_size
            (data count_column) (data avg_column) ;;;
  ret (set_size output_size avg_column).

Section Groupby.

(** The hash-aggregation primitive of [hash/groupby_compute_api.h]: it
    sees the device (memory and history) and the call. *)
Variable GroupbyHash : device → call → reply.

(** Whether the translation unit is compiled with [NDEBUG], which
    turns [assert] into nothing. *)
Variable NDEBUG : bool.

Definition assert (c : bool) : M unit :=
  if NDEBUG || c then ret tt else halt AssertionFailed.

Definition launch (c : call) : M reply :=
  λ d, let r := GroupbyHash d c in (Done r, log (Hash c r) (written c r (heap d)) d).

Definition create_gdf_column (col_type : ctype) (size : nat) : M gdf_column :=
  p <~ cudaMalloc size col_type ;;
  ret {| data := p; valid := None; size := size; dtype := gdf_col_type col_type |}.

Definition dispatched_groupby (groupby_type aggregation_type : ctype)
    (op : aggregation_operation) (ncols : Z)
    (in_groupby_columns : list gdf_column) (in_aggregation_column : gdf_column)
    (out_groupby_columns : list gdf_column) (out_aggregation_column : gdf_column)
    (sort_result : bool) : M outputs :=
  in0 <~ first_column in_groupby_columns ;;
  out0 <~ first_column out_groupby_columns ;;
  r <~ launch {| call_groupby_type := groupby_type;
                 call_aggregation_type := aggregation_type;
                 call_op := op;
                 in_group_col := data in0;
                 in_agg_col := data in_aggregation_column;
                 in_size := size in0;
                 out_group_col := data out0;
                 out_agg_col := data out_aggregation_column;
                 sort_result := sort_result |} ;;
  match r with
  | cudaFailure _ _ =>
      ret (mk_outputs GDF_CUDA_ERROR out_groupby_columns out_aggregation_column)
  | cudaSuccess groups =>
      ret (mk_outputs GDF_SUCCESS
             (<[0%nat := set_size (out_size groups) out0]> out_groupby_columns)
             (set_size (out_size groups) out_aggregation_column))
  end.

Definition dispatch_aggregation_type (groupby_type : ctype)
    (op : aggregation_operation) (ncols : Z)
    (in_groupby_columns : list gdf_column) (in_aggregation_column : gdf_column)
    (out_groupby_columns : list gdf_column) (out_aggregation_column : gdf_column)
    (sort_result : bool) : M outputs :=
  let aggregation_column_type :=
    if is_same_functor count_op op
    then dtype out_aggregation_column
    else dtype in_aggregation_column in
  let go aggregation_type :=
    dispatched_groupby groupby_type aggregation_type op ncols
      in_groupby_columns in_aggregation_column
      out_groupby_columns out_aggregation_column sort_result in
  match aggregation_column_type with
  | GDF_INT8 => go int8_t
  | GDF_INT16 => go int16_t
  | GDF_INT32 => go int32_t
  | GDF_INT64 => go int64_t
  | GDF_FLOAT32 => go float
  | GDF_FLOAT64 => go double
  | GDF_other _ =>
      ret (mk_outputs GDF_UNSUPPORTED_DTYPE out_groupby_columns out_aggregation_column)
  end.

Definition dispatch_groupby_type (op : aggregation_operation) (ncols : Z)
    (in_groupby_columns : list gdf_column) (in_aggregation_column : gdf_column)
    (out_groupby_columns : list gdf_column) (out_aggregation_column : gdf_column)
    (sort_result : bool) : M outputs :=
  in0 <~ first_column in_groupby_columns ;;
  let groupby_column_type := dtype in0 in
  let go groupby_type :=
    dispatch_aggregation_type groupby_type op ncols
      in_groupby_columns in_aggregation_column
      out_groupby_columns out_aggregation_column sort_result in
  match groupby_column_type with
  | GDF_INT8 => go int8_t
  | GDF_INT16 => go int16_t
  | GDF_INT32 => go int32_t
  | GDF_INT64 => go int64_t
  | GDF_FLOAT32 => go int32_t
  | GDF_FLOAT64 => go int64_t
  | GDF_other _ =>
      ret (mk_outputs GDF_UNSUPPORTED_DTYPE out_groupby_columns out_aggregation_column)
  end.

Definition gdf_group_by_hash (aggregation_operation : aggregation_operation)
    (ncols : Z)
    (in_groupby_columns : list gdf_column) (in_aggregation_column : gdf_column)
    (out_groupby_columns : list gdf_column) (out_aggregation_column : gdf_column)
    (sort_result : bool) : M outputs :=
  if decide (ncols > 1)
  then ret (mk_outputs GDF_GROUPBY_TOO_MANY_COLUMNS
              out_groupby_columns out_aggregation_column)
  else dispatch_groupby_type aggregation_operation ncols
         in_groupby_columns in_aggregation_column
         out_groupby_columns out_aggregation_column sort_result.

(** The column structs are passed on as values: each pass hands back the
    columns it updated and the next step takes those.  A caller that
    passes one struct in two roles is outside the model. *)
Definition multi_pass_avg (sum_type : ctype) (ncols : Z)
    (in_groupby_columns : list gdf_column) (in_aggregation_column : gdf_column)
    (out_groupby_columns : list gdf_column) (out_aggregation_column : gdf_column)
    : M outputs :=
  let output_size := size out_aggregation_column in
  let sort_result := true in
  count_output <~ create_gdf_column size_t output_size ;;
  (* the error code of the COUNT pass is dropped *)
  r1 <~ gdf_group_by_hash count_op ncols in_groupby_columns in_aggregation_column
          out_groupby_columns count_output sort_result ;;
  let out_groupby_columns := groupby_out r1 in
  let count_output := aggregation_out r1 in
  sum_output <~ create_gdf_column sum_type output_size ;;
  (* the error code of the SUM pass is dropped *)
  r2 <~ gdf_group_by_hash sum_op ncols in_groupby_columns in_aggregation_column
          out_groupby_columns sum_output sort_result ;;
  let out_groupby_columns := groupby_out r2 in
  let sum_output := aggregation_out r2 in
  let gdf_output_type := dtype out_aggregation_column in
  let go avg_type :=
    avg <~ compute_average sum_type avg_type
             out_aggregation_column count_output sum_output ;;
    ret (Some avg) in
  sw <~ match gdf_output_type with
        | GDF_INT8 => go int8_t
        | GDF_INT16 => go int16_t
        | GDF_INT32 => go int32_t
        | GDF_INT64 => go int64_t
        | GDF_FLOAT32 => go float
        | GDF_FLOAT64 => go double
        | GDF_other _ => ret None
        end ;;
  match sw with
  | None =>
      ret (mk_outputs GDF_UNSUPPORTED_DTYPE out_groupby_columns out_aggregation_column)
  | Some avg =>
      cudaFree (data count_output) ;;;
      cudaFree (data sum_output) ;;;
      ret (mk_outputs GDF_SUCCESS out_groupby_columns avg)
  end.

Definition gdf_group_by_hash_avg (ncols : Z)
    (in_groupby_columns : list gdf_column) (in_aggregation_column : gdf_column)
    (out_groupby_columns : list gdf_column) (out_aggregation_column : gdf_column)
    : M outputs :=
  assert (bool_decide (ncols = 1)) ;;;
  let gdf_sum_type := dtype in_aggregation_column in
  let go sum_type :=
    multi_pass_avg sum_type ncols in_groupby_columns in_aggregation_column
      out_groupby_columns out_aggregation_column in
  match gdf_sum_type with
  | GDF_INT8 => go int8_t
  | GDF_INT16 => go int16_t
  | GDF_INT32 => go int32_t
  | GDF_INT64 => go int64_t
  | GDF_FLOAT32 => go float
  | GDF_FLOAT64 => go double
  | GDF_other _ =>
      ret (mk_outputs GDF_UNSUPPORTED_DTYPE out_groupby_columns out_aggregation_column)
  end.

End Groupby.

(** ** Observations on a run *)

(** The part of the trace of [d'] that is not yet in [d]. *)
Definition added (d d' : device) : list event :=
  drop (length (trace d)) (trace d').


Definition result {A} (m : M A) (d : device) : outcome A := fst (m d).

Definition final {A} (m : M A) (d : device) : device := snd (m d).

(** The events a computation adds to the trace of the device it starts
    from. *)
Definition events {A} (m : M A) (d : device) : list event :=
  added d (final m d).

(** The error code a call hands back, if it returns at all. *)
Definition error_code (r : outcome outputs) : option gdf_error :=
  match r with
  | Done o => Some (err o)
  | Halt _ => None
  end.

(** The six tags the dispatch accepts. *)
Definition supported (t : gdf_dtype) : bool :=
  match t with GDF_other _ => false | _ => true end.

(** Element type a value-column tag stands for. *)
Definition value_path (t : gdf_dtype) : option ctype :=
  match t with
  | GDF_INT8 => Some int8_t
  | GDF_INT16 => Some int16_t
  | GDF_INT32 => Some int32_t
  | GDF_INT64 => Some int64_t
  | GDF_FLOAT32 => Some float
  | GDF_FLOAT64 => Some double
  | GDF_other _ => None
  end.

(** Integer type of the same width as the element type of a tag. *)
Definition equal_width_integer (t : gdf_dtype) : option ctype :=
  match value_path t with
  | Some float => Some int32_t
  | Some double => Some int64_t
  | o => o
  end.

(** The tag the second dispatch level looks at. *)
Definition selecting_tag (op : aggregation_operation)
    (in_aggregation_column out_aggregation_column : gdf_column) : gdf_dtype :=
  match op with
  | count_op => dtype out_aggregation_column
  | _ => dtype in_aggregation_column
  end.

(** ** A reference backend and test doubles *)

Module Reference.
Import Scalar.

Definition start (op : aggregation_operation) (v : value) : value :=
  match op with count_op => VI 1 | _ => v end.

Definition step (t : ctype) (op : aggregation_operation) (acc v : value)
  : option value :=
  match op, acc, v with
  | count_op, VI n, _ => Some (VI (wrap t (n + 1)))
  | sum_op, VI a, VI b => Some (VI (wrap t (a + b)))
  | sum_op, VF32 a, VF32 b => Some (VF32 (SFadd 24 128 a b))
  | sum_op, VF64 a, VF64 b => Some (VF64 (SFadd 53 1024 a b))
  | min_op, VI a, VI b => Some (VI (Z.min a b))
  | max_op, VI a, VI b => Some (VI (Z.max a b))
  | _, _, _ => None
  end.

(** Groups are kept in ascending key order. *)
Fixpoint upsert (t : ctype) (op : aggregation_operation) (k : Z) (v : value)
    (gs : list (Z * value)) : option (list (Z * value)) :=
  match gs with
  | [] => Some [(k, start op v)]
  | (k', a) :: gs' =>
      if decide (k < k') then Some ((k, start op v) :: gs)
      else if decide (k = k') then a' ← step t op a v; Some ((k, a') :: gs')
      else gs'' ← upsert t op k v gs'; Some ((k', a) :: gs'')
  end.

Definition row (d : device) (c : call) (i : nat) : option (Z * value) :=
  k ← load (call_groupby_type c) (fetch (in_group_col c) i (heap d));
  v ← match call_op c with
      | count_op => Some (VI 0)
      | _ => load (call_aggregation_type c) (fetch (in_agg_col c) i (heap d))
      end;
  match k with VI z => Some (z, v) | _ => None end.

Definition aggregate (c : call) (rows : list (Z * value))
  : option (list (Z * value)) :=
  foldl (λ acc r, gs ← acc; upsert (call_aggregation_type c) (call_op c) r.1 r.2 gs)
        (Some []) rows.

(** Modelled from the spec: [HashAggregate] of section 6, the external
    primitive behind [GroupbyHash], whose implementation is not among
    the sources.  One aggregate per distinct key, keys ascending; it
    reports failure on input it cannot read. *)
Definition HashAggregate (d : device) (c : call) : reply :=
  match mapM (row d c) (seq 0 (in_size c)) ≫= aggregate c with
  | Some gs => cudaSuccess (prod_map VI id <$> gs)
  | None => cudaFailure [] []
  end.

(** A backend that always reports failure. *)
Definition failing (d : device) (c : call) : reply := cudaFailure [] [].

(** A backend forced to fail on the passes of one operator. *)
Definition failing_at (bad : aggregation_operation) (d : device) (c : call)
  : reply :=
  if decide (call_op c = bad) then cudaFailure [] [] else HashAggregate d c.

End Reference.

(** ** Sample requests *)

Module Sample.
Import Scalar.

Definition ints (l : list Z) : buffer := (λ z, Some (VI z)) <$> l.

(** Four live buffers: keys in, values in, keys out, aggregate out. *)
Definition memory (keys vals : list Z) : device :=
  {| heap := list_to_map
       [(1%positive, ints keys); (2%positive, ints vals);
        (3%positive, replicate (length keys) None);
        (4%positive, replicate (length keys) None)];
     trace := [] |}.

Definition column (p : ptr) (n : nat) (t : gdf_dtype) : gdf_column :=
  {| data := p; valid := None; size := n; dtype := t |}.

Definition keys_in (n : nat) (t : gdf_dtype) := column 1%positive n t.
Definition vals_in (n : nat) (t : gdf_dtype) := column 2%positive n t.
Definition keys_out (n : nat) (t : gdf_dtype) := column 3%positive n t.
Definition agg_out (n : nat) (t : gdf_dtype) := column 4%positive n t.

(** The invocation of the primitive a pass over these columns issues,
    with the aggregates going to block [p]. *)
Definition invocation_to (p : ptr) (gt vt : ctype) (op : aggregation_operation)
    (n : nat) : call :=
  mk_call gt vt op 1%positive 2%positive n 3%positive p true.

Definition invocation : ctype → ctype → aggregation_operation → nat → call :=
  invocation_to 4%positive.

Arguments invocation_to p%_positive gt vt op n%_nat.

End Sample.


(** ** The paths of one pass *)

Section Pass.

Variable GroupbyHash : device → call → reply.

(** Every way [gdf_group_by_hash] can run from device [d], with the
    outcome and the device it leaves. *)
Inductive pass (op : aggregation_operation) (ncols : Z)
    (ins : list gdf_column) (in_agg : gdf_column)
    (outs : list gdf_column) (out_agg : gdf_column) (sort : bool) (d : device)
  : outcome outputs → device → Prop :=
  | pass_too_many :
      ncols > 1 →
      pass op ncols ins in_agg outs out_agg sort d
        (Done (mk_outputs GDF_GROUPBY_TOO_MANY_COLUMNS outs out_agg)) d
  | pass_no_key_column :
      ncols <= 1 → ins = [] →
      pass op ncols ins in_agg outs out_agg sort d (Halt OutOfBounds) d
  | pass_unsupported in0 ins' :
      ncols <= 1 → ins = in0 :: ins' →
      equal_width_integer (dtype in0) = None
      ∨ value_path (selecting_tag op in_agg out_agg) = None →
      pass op ncols ins in_agg outs out_agg sort d
        (Done (mk_outputs GDF_UNSUPPORTED_DTYPE outs out_agg)) d
  | pass_no_out_column in0 ins' gt vt :
      ncols <= 1 → ins = in0 :: ins' →
      equal_width_integer (dtype in0) = Some gt →
      value_path (selecting_tag op in_agg out_agg) = Some vt →
      outs = [] →
      pass op ncols ins in_agg outs out_agg sort d (Halt OutOfBounds) d
  | pass_failure in0 ins' gt vt out0 outs' keys vals :
      ncols <= 1 → ins = in0 :: ins' →
      equal_width_integer (dtype in0) = Some gt →
      value_path (selecting_tag op in_agg out_agg) = Some vt →
      outs = out0 :: outs' →
      let c := mk_call gt vt op (data in0) (data in_agg) (size in0)
                 (data out0) (data out_agg) sort in
      GroupbyHash d c = cudaFailure keys vals →
      pass op ncols ins in_agg outs out_agg sort d
        (Done (mk_outputs GDF_CUDA_ERROR outs out_agg))
        (log (Hash c (cudaFailure keys vals))
             (written c (cudaFailure keys vals) (heap d)) d)
  | pass_success in0 ins' gt vt out0 outs' groups :
      ncols <= 1 → ins = in0 :: ins' →
      equal_width_integer (dtype in0) = Some gt →
      value_path (selecting_tag op in_agg out_agg) = Some vt →
      outs = out0 :: outs' →
      let c := mk_call gt vt op (data in0) (data in_agg) (size in0)
                 (data out0) (data out_agg) sort in
      GroupbyHash d c = cudaSuccess groups →
      pass op ncols ins in_agg outs out_agg sort d
        (Done (mk_outputs GDF_SUCCESS
                 (set_size (out_size groups) out0 :: outs')
                 (set_size (out_size groups) out_agg)))
        (log (Hash c (cudaSuccess groups))
             (written c (cudaSuccess groups) (heap d)) d).

End Pass.

(** ** The paths of the AVG composition *)

Definition fresh_block (d : device) : ptr := fresh (dom (heap d)).

Definition allocated (n : nat) (t : ctype) (d : device) : device :=
  final (cudaMalloc n t) d.

Definition released (p : ptr) (d : device) : device :=
  final (cudaFree p) d.

Definition averaged (sum_type avg_type : ctype)
    (avg_column count_column sum_column : gdf_column) (d : device) : device :=
  final (compute_average sum_type avg_type avg_column count_column sum_column) d.

Section Composition.

Variable GroupbyHash : device → call → reply.

(** Every way [multi_pass_avg] can run from device [d]: the COUNT pass
    on a fresh column, the SUM pass on a second one, then the switch on
    the output tag. *)
Inductive composed (sum_type : ctype) (ncols : Z)
    (ins : list gdf_column) (in_agg : gdf_column)
    (outs : list gdf_column) (out_agg : gdf_column) (d : device)
  : outcome outputs → device → Prop :=
  | composed_count_halts f d2 :
      pass GroupbyHash count_op ncols ins in_agg outs
        (mk_column (fresh_block d) None (size out_agg) GDF_INT64) true
        (allocated (size out_agg) size_t d) (Halt f) d2 →
      composed sum_type ncols ins in_agg outs out_agg d (Halt f) d2
  | composed_sum_halts o1 d2 f d4 :
      pass GroupbyHash count_op ncols ins in_agg outs
        (mk_column (fresh_block d) None (size out_agg) GDF_INT64) true
        (allocated (size out_agg) size_t d) (Done o1) d2 →
      pass GroupbyHash sum_op ncols ins in_agg (groupby_out o1)
        (mk_column (fresh_block d2) None (size out_agg) (gdf_col_type sum_type)) true
        (allocated (size out_agg) sum_type d2) (Halt f) d4 →
      composed sum_type ncols ins in_agg outs out_agg d (Halt f) d4
  | composed_unsupported o1 d2 o2 d4 :
      pass GroupbyHash count_op ncols ins in_agg outs
        (mk_column (fresh_block d) None (size out_agg) GDF_INT64) true
        (allocated (size out_agg) size_t d) (Done o1) d2 →
      pass GroupbyHash sum_op ncols ins in_agg (groupby_out o1)
        (mk_column (fresh_block d2) None (size out_agg) (gdf_col_type sum_type)) true
        (allocated (size out_agg) sum_type d2) (Done o2) d4 →
      value_path (dtype out_agg) = None →
      composed sum_type ncols ins in_agg outs out_agg d
        (Done (mk_outputs GDF_UNSUPPORTED_DTYPE (groupby_out o2) out_agg)) d4
  | composed_success o1 d2 o2 d4 avg_type :
      pass GroupbyHash count_op ncols ins in_agg outs
        (mk_column (fresh_block d) None (size out_agg) GDF_INT64) true
        (allocated (size out_agg) size_t d) (Done o1) d2 →
      pass GroupbyHash sum_op ncols ins in_agg (groupby_out o1)
        (mk_column (fresh_block d2) None (size out_agg) (gdf_col_type sum_type)) true
        (allocated (size out_agg) sum_type d2) (Done o2) d4 →
      value_path (dtype out_agg) = Some avg_type →
      composed sum_type ncols ins in_agg outs out_agg d
        (Done (mk_outputs GDF_SUCCESS (groupby_out o2)
                 (set_size (size (aggregation_out o1)) out_agg)))
        (released (data (aggregation_out o2))
           (released (data (aggregation_out o1))
              (averaged sum_type avg_type out_agg
                 (aggregation_out o1) (aggregation_out o2) d4))).

End Composition.

(** * Properties *)

(** ** Traces *)

Lemma added_refl d : added d d = [].
Proof. unfold added. by rewrite drop_all. Qed.

Lemma added_log d e h : added d (log e h d) = [e].
Proof. unfold added, log; simpl. by rewrite drop_app_length. Qed.

Lemma added_app d d' l : trace d' = trace d ++ l → added d d' = l.
Proof. unfold added. intros ->. by rewrite drop_app_length. Qed.

Section Facts.

Variable GroupbyHash : device → call → reply.

(** ** The two dispatch levels as lookups *)

Lemma dispatch_aggregation_type_path gt op ncols ins in_agg outs out_agg sort :
  dispatch_aggregation_type GroupbyHash gt op ncols ins in_agg outs out_agg sort
  = match value_path (selecting_tag op in_agg out_agg) with
    | Some vt =>
        dispatched_groupby GroupbyHash gt vt op ncols ins in_agg outs out_agg sort
    | None => ret (mk_outputs GDF_UNSUPPORTED_DTYPE outs out_agg)
    end.
Proof.
  unfold dispatch_aggregation_type.
  destruct op; simpl;
    match goal with |- context [value_path ?t] => by destruct t end.
Qed.

Lemma dispatch_groupby_type_path op ncols in0 ins' in_agg outs out_agg sort :
  dispatch_groupby_type GroupbyHash op ncols (in0 :: ins') in_agg outs out_agg sort
  = match equal_width_integer (dtype in0) with
    | Some gt =>
        dispatch_aggregation_type GroupbyHash gt op ncols (in0 :: ins') in_agg
          outs out_agg sort
    | None => ret (mk_outputs GDF_UNSUPPORTED_DTYPE outs out_agg)
    end.
Proof.
  unfold dispatch_groupby_type, bind, first_column, equal_width_integer; simpl.
  by destruct (dtype in0).
Qed.

Lemma gdf_group_by_hash_pass op ncols ins in_agg outs out_agg sort d :
  pass GroupbyHash op ncols ins in_agg outs out_agg sort d
    (result (gdf_group_by_hash GroupbyHash op ncols ins in_agg outs out_agg sort) d)
    (final (gdf_group_by_hash GroupbyHash op ncols ins in_agg outs out_agg sort) d).
Proof.
  unfold result, final, gdf_group_by_hash.
  destruct (decide (ncols > 1)) as [Hn|Hn]; [by constructor|].
  assert (ncols <= 1) as Hle by lia.
  destruct ins as [|in0 ins']; [by constructor|].
  rewrite dispatch_groupby_type_path.
  destruct (equal_width_integer (dtype in0)) as [gt|] eqn:Hk;
    [|eapply pass_unsupported; eauto].
  rewrite dispatch_aggregation_type_path.
  destruct (value_path (selecting_tag op in_agg out_agg)) as [vt|] eqn:Hv;
    [|eapply pass_unsupported; eauto].
  unfold dispatched_groupby, bind; simpl.
  destruct outs as [|out0 outs']; simpl.
  { eapply pass_no_out_column; eauto. }
  unfold launch.
  destruct (GroupbyHash d _) as [groups|keys vals] eqn:Hr; simpl.
  - eapply pass_success; eauto.
  - eapply pass_failure; eauto.
Qed.

(** What a pass leaves in the trace: nothing, or the one invocation of
    the primitive, whose answer fixes the error code and the sizes. *)
Lemma pass_added op ncols ins in_agg outs out_agg sort d r d' :
  pass GroupbyHash op ncols ins in_agg outs out_agg sort d r d' →
  (d' = d ∧ error_code r ≠ Some GDF_SUCCESS ∧ error_code r ≠ Some GDF_CUDA_ERROR
   ∧ ∀ o, r = Done o → groupby_out o = outs ∧ aggregation_out o = out_agg)
  ∨ (∃ c keys vals,
       d' = log (Hash c (cudaFailure keys vals))
                (written c (cudaFailure keys vals) (heap d)) d
       ∧ call_op c = op ∧ r = Done (mk_outputs GDF_CUDA_ERROR outs out_agg))
  ∨ (∃ c groups out0 outs',
       d' = log (Hash c (cudaSuccess groups))
                (written c (cudaSuccess groups) (heap d)) d
       ∧ call_op c = op ∧ outs = out0 :: outs'
       ∧ out_group_col c = data out0 ∧ out_agg_col c = data out_agg
       ∧ r = Done (mk_outputs GDF_SUCCESS
                     (set_size (out_size groups) out0 :: outs')
                     (set_size (out_size groups) out_agg))).
Proof.
  destruct 1; subst.
  - left. split_and!; [done..|]. by intros ? [= <-].
  - left. by split_and!.
  - left. split_and!; [done..|]. by intros ? [= <-].
  - left. by split_and!.
  - right; left. by exists c, keys, vals.
  - right; right. by exists c, groups, out0, outs'.
Qed.

Lemma create_gdf_column_run t n d :
  create_gdf_column t n d
  = (Done (mk_column (fresh_block d) None n (gdf_col_type t)), allocated n t d).
Proof. done. Qed.

Lemma compute_average_run st vt avg_column count_column sum_column d :
  compute_average st vt avg_column count_column sum_column d
  = (Done (set_size (size count_column) avg_column),
     averaged st vt avg_column count_column sum_column d).
Proof. done. Qed.

Lemma cudaFree_run p d : cudaFree p d = (Done tt, released p d).
Proof. done. Qed.

Lemma multi_pass_avg_composed sum_type ncols ins in_agg outs out_agg d :
  composed GroupbyHash sum_type ncols ins in_agg outs out_agg d
    (result (multi_pass_avg GroupbyHash sum_type ncols ins in_agg outs out_agg) d)
    (final (multi_pass_avg GroupbyHash sum_type ncols ins in_agg outs out_agg) d).
Proof.
  pose proof (gdf_group_by_hash_pass count_op ncols ins in_agg outs
                (mk_column (fresh_block d) None (size out_agg) GDF_INT64) true
                (allocated (size out_agg) size_t d)) as P1.
  unfold result, final in *.
  unfold multi_pass_avg, bind.
  rewrite create_gdf_column_run.
  change (gdf_col_type size_t) with GDF_INT64.
  destruct (gdf_group_by_hash GroupbyHash count_op _ _ _ _ _ _ _)
    as [[o1|f] d2] eqn:E1; simpl in P1; [|by constructor].
  pose proof (gdf_group_by_hash_pass sum_op ncols ins in_agg (groupby_out o1)
                (mk_column (fresh_block d2) None (size out_agg) (gdf_col_type sum_type))
                true (allocated (size out_agg) sum_type d2)) as P2.
  unfold result, final in P2.
  rewrite create_gdf_column_run.
  destruct (gdf_group_by_hash GroupbyHash sum_op _ _ _ _ _ _ _)
    as [[o2|f] d4] eqn:E2; simpl in P2; [|by econstructor].
  destruct (dtype out_agg) eqn:Ht;
    try (rewrite compute_average_run; cbv beta iota delta [ret];
         rewrite cudaFree_run; cbv beta iota;
         rewrite cudaFree_run; cbv beta iota;
         eapply composed_success; eauto; by rewrite Ht).
  eapply composed_unsupported; eauto. by rewrite Ht.
Qed.

Lemma gdf_group_by_hash_avg_path NDEBUG ncols ins in_agg outs out_agg :
  gdf_group_by_hash_avg GroupbyHash NDEBUG ncols ins in_agg outs out_agg
  = (assert NDEBUG (bool_decide (ncols = 1)) ;;;
     match value_path (dtype in_agg) with
     | Some sum_type =>
         multi_pass_avg GroupbyHash sum_type ncols ins in_agg outs out_agg
     | None => ret (mk_outputs GDF_UNSUPPORTED_DTYPE outs out_agg)
     end).
Proof. unfold gdf_group_by_hash_avg. by destruct (dtype in_agg). Qed.

End Facts.

Import Scalar Sample.

(** ** The sample requests of the spec, on the reference backend *)

Example sum_by_key :
  let run := gdf_group_by_hash Reference.HashAggregate sum_op 1
               [keys_in 6 GDF_INT32] (vals_in 6 GDF_INT32)
               [keys_out 6 GDF_INT32] (agg_out 6 GDF_INT32) true in
  let d := memory [1; 1; 2; 3; 3; 3] [10; 20; 5; 1; 2; 3] in
  result run d
  = Done (mk_outputs GDF_SUCCESS [set_size 3 (keys_out 6 GDF_INT32)]
            (set_size 3 (agg_out 6 GDF_INT32)))
  ∧ take 3 <$> heap (final run d) !! 3%positive = Some (ints [1; 2; 3])
  ∧ take 3 <$> heap (final run d) !! 4%positive = Some (ints [30; 5; 6]).
Proof. by vm_compute. Qed.

Example count_by_key :
  let run := gdf_group_by_hash Reference.HashAggregate count_op 1
               [keys_in 6 GDF_INT32] (vals_in 6 GDF_INT32)
               [keys_out 6 GDF_INT32] (agg_out 6 GDF_INT64) true in
  let d := memory [1; 1; 2; 3; 3; 3] [10; 20; 5; 1; 2; 3] in
  result run d
  = Done (mk_outputs GDF_SUCCESS [set_size 3 (keys_out 6 GDF_INT32)]
            (set_size 3 (agg_out 6 GDF_INT64)))
  ∧ take 3 <$> heap (final run d) !! 3%positive = Some (ints [1; 2; 3])
  ∧ take 3 <$> heap (final run d) !! 4%positive = Some (ints [2; 1; 3]).
Proof. by vm_compute. Qed.

Example average_by_key :
  let run := gdf_group_by_hash_avg Reference.HashAggregate false 1
               [keys_in 3 GDF_INT32] (vals_in 3 GDF_INT32)
               [keys_out 3 GDF_INT32] (agg_out 3 GDF_FLOAT64) in
  let d := memory [1; 1; 2] [4; 6; 10] in
  result run d
  = Done (mk_outputs GDF_SUCCESS [set_size 2 (keys_out 3 GDF_INT32)]
            (set_size 2 (agg_out 3 GDF_FLOAT64)))
  ∧ take 2 <$> heap (final run d) !! 3%positive = Some (ints [1; 2])
  ∧ take 2 <$> heap (final run d) !! 4%positive
    = Some [Some (VF64 (float_of_Z double 5)); Some (VF64 (float_of_Z double 10))]
  ∧ allocations (events run d) = deallocations (events run d).
Proof. by vm_compute. Qed.

(** ** One pass *)

(** What a pass adds to the trace: at most the one invocation of the
    primitive, and its answer decides the outcome. *)
Lemma pass_trace GroupbyHash op ncols ins in_agg outs out_agg sort d r d' :
  pass GroupbyHash op ncols ins in_agg outs out_agg sort d r d' →
  ∃ evs, trace d' = trace d ++ evs ∧
    ∀ e, e ∈ evs →
      ∃ c rep, e = Hash c rep ∧ evs = [e] ∧ call_op c = op
        ∧ d' = log e (written c rep (heap d)) d
        ∧ match rep with
          | cudaSuccess groups =>
              ∃ out0 outs', outs = out0 :: outs'
                ∧ out_group_col c = data out0 ∧ out_agg_col c = data out_agg
                ∧ r = Done (mk_outputs GDF_SUCCESS
                              (set_size (out_size groups) out0 :: outs')
                              (set_size (out_size groups) out_agg))
          | cudaFailure _ _ =>
              r = Done (mk_outputs GDF_CUDA_ERROR outs out_agg)
          end.
Proof.
  intros P.
  destruct (pass_added _ _ _ _ _ _ _ _ _ _ _ P)
    as [(-> & _)|[(c & keys & vals & -> & Hop & ->)
                 |(c & groups & out0 & outs' & -> & Hop & -> & Hk & Hv & ->)]].
  - exists []. split; [by rewrite app_nil_r|]. by intros e ?%elem_of_nil.
  - eexists [_]. split; [done|]. intros e ->%list_elem_of_singleton.
    by exists c, (cudaFailure keys vals).
  - eexists [_]. split; [done|]. intros e ->%list_elem_of_singleton.
    exists c, (cudaSuccess groups). split_and!; try done. by exists out0, outs'.
Qed.

(** C6: when the hash-aggregation primitive reports failure to a
    [gdf_group_by_hash] call, the call returns [GDF_CUDA_ERROR] and the
    output key and value columns come back as they were passed in, their
    size fields included. *)
Theorem backend_failure_is_cuda_error
    GroupbyHash op ncols ins in_agg outs out_agg sort d c keys vals :
  Hash c (cudaFailure keys vals)
    ∈ events (gdf_group_by_hash GroupbyHash op ncols ins in_agg outs out_agg sort) d →
  result (gdf_group_by_hash GroupbyHash op ncols ins in_agg outs out_agg sort) d
  = Done (mk_outputs GDF_CUDA_ERROR outs out_agg).
Proof.
  intros Hin.
  destruct (pass_trace _ _ _ _ _ _ _ _ _ _ _
              (gdf_group_by_hash_pass GroupbyHash op ncols ins in_agg outs out_agg sort d))
    as (evs & Ht & Hev).
  unfold events in Hin. rewrite (added_app _ _ _ Ht) in Hin.
  destruct (Hev _ Hin) as (c' & rep & [= <- <-] & _ & _ & _ & Hr). exact Hr.
Qed.

Lemma backend_failure_is_cuda_error_witness :
  Hash (invocation int32_t int32_t sum_op 3) (cudaFailure [] [])
    ∈ events (gdf_group_by_hash Reference.failing sum_op 1
                [keys_in 3 GDF_INT32] (vals_in 3 GDF_INT32)
                [keys_out 3 GDF_INT32] (agg_out 3 GDF_INT32) true)
             (memory [1; 1; 2] [4; 6; 10])
  ∧ result (gdf_group_by_hash Reference.failing sum_op 1
              [keys_in 3 GDF_INT32] (vals_in 3 GDF_INT32)
              [keys_out 3 GDF_INT32] (agg_out 3 GDF_INT32) true)
           (memory [1; 1; 2] [4; 6; 10])
    = Done (mk_outputs GDF_CUDA_ERROR [keys_out 3 GDF_INT32] (agg_out 3 GDF_INT32)).
Proof.
  assert (Hash (invocation int32_t int32_t sum_op 3) (cudaFailure [] [])
    ∈ events (gdf_group_by_hash Reference.failing sum_op 1
                [keys_in 3 GDF_INT32] (vals_in 3 GDF_INT32)
                [keys_out 3 GDF_INT32] (agg_out 3 GDF_INT32) true)
             (memory [1; 1; 2] [4; 6; 10])) as H
    by (vm_compute; constructor).
  split; [exact H|].
  exact (backend_failure_is_cuda_error _ _ _ _ _ _ _ _ _ _ _ _ H).
Defined.

(** C8: the second dispatch level of [gdf_group_by_hash] picks the
    execution path from the value column's type tag, except for COUNT,
    where it takes the output column's tag: the dispatcher is the lookup of
    that tag, and any invocation of the primitive a call makes is
    instantiated at the element type of that tag. *)
Theorem second_level_selects_by_tag
    GroupbyHash gt op ncols ins in_agg outs out_agg sort :
  dispatch_aggregation_type GroupbyHash gt op ncols ins in_agg outs out_agg sort
  = match value_path (if decide (op = count_op)
                      then dtype out_agg else dtype in_agg) with
    | Some vt =>
        dispatched_groupby GroupbyHash gt vt op ncols ins in_agg outs out_agg sort
    | None => ret (mk_outputs GDF_UNSUPPORTED_DTYPE outs out_agg)
    end
  ∧ ∀ d c rep,
      Hash c rep
        ∈ events (gdf_group_by_hash GroupbyHash op ncols ins in_agg outs out_agg sort) d →
      value_path (if decide (op = count_op) then dtype out_agg else dtype in_agg)
      = Some (call_aggregation_type c).
Proof.
  assert (selecting_tag op in_agg out_agg
          = if decide (op = count_op) then dtype out_agg else dtype in_agg) as <-
    by by destruct op.
  split; [apply dispatch_aggregation_type_path|].
  intros d c rep Hin. unfold events in Hin.
  destruct (gdf_group_by_hash_pass GroupbyHash op ncols ins in_agg outs out_agg sort d);
    rewrite ?added_refl, ?added_log in Hin;
    try (by apply elem_of_nil in Hin);
    apply list_elem_of_singleton in Hin; by simplify_eq.
Qed.

Lemma second_level_selects_by_tag_witness :
  Hash (invocation int32_t int64_t count_op 3)
       (cudaSuccess [(VI 1, VI 2); (VI 2, VI 1)])
    ∈ events (gdf_group_by_hash Reference.HashAggregate count_op 1
                [keys_in 3 GDF_INT32] (vals_in 3 GDF_FLOAT32)
                [keys_out 3 GDF_INT32] (agg_out 3 GDF_INT64) true)
             (memory [1; 1; 2] [4; 6; 10])
  ∧ value_path (if decide (count_op = count_op)
                then dtype (agg_out 3 GDF_INT64)
                else dtype (vals_in 3 GDF_FLOAT32))
    = Some int64_t.
Proof.
  assert (Hash (invocation int32_t int64_t count_op 3)
               (cudaSuccess [(VI 1, VI 2); (VI 2, VI 1)])
    ∈ events (gdf_group_by_hash Reference.HashAggregate count_op 1
                [keys_in 3 GDF_INT32] (vals_in 3 GDF_FLOAT32)
                [keys_out 3 GDF_INT32] (agg_out 3 GDF_INT64) true)
             (memory [1; 1; 2] [4; 6; 10])) as H
    by (vm_compute; constructor).
  split; [exact H|].
  exact (proj2 (second_level_selects_by_tag Reference.HashAggregate int32_t count_op 1
                  [keys_in 3 GDF_INT32] (vals_in 3 GDF_FLOAT32)
                  [keys_out 3 GDF_INT32] (agg_out 3 GDF_INT64) true) _ _ _ H).
Defined.

(** C9: a key column tagged as floating point is dispatched to the
    integer key path of the same width: [GDF_FLOAT32] to the [int32_t]
    path and [GDF_FLOAT64] to the [int64_t] path, in the dispatcher and in
    every invocation of the primitive a [gdf_group_by_hash] call makes. *)
Theorem float_key_takes_integer_path
    GroupbyHash op ncols in0 ins' in_agg outs out_agg sort gt :
  (dtype in0 = GDF_FLOAT32 ∧ gt = int32_t)
  ∨ (dtype in0 = GDF_FLOAT64 ∧ gt = int64_t) →
  dispatch_groupby_type GroupbyHash op ncols (in0 :: ins') in_agg outs out_agg sort
  = dispatch_aggregation_type GroupbyHash gt op ncols (in0 :: ins') in_agg
      outs out_agg sort
  ∧ ∀ d c rep,
      Hash c rep
        ∈ events (gdf_group_by_hash GroupbyHash op ncols (in0 :: ins') in_agg
                    outs out_agg sort) d →
      call_groupby_type c = gt.
Proof.
  intros Hk.
  assert (equal_width_integer (dtype in0) = Some gt) as Hgt
    by (destruct Hk as [[-> ->]|[-> ->]]; done).
  split; [by rewrite dispatch_groupby_type_path, Hgt|].
  intros d c rep Hin. unfold events in Hin.
  destruct (gdf_group_by_hash_pass GroupbyHash op ncols (in0 :: ins') in_agg
              outs out_agg sort d);
    rewrite ?added_refl, ?added_log in Hin;
    try (by apply elem_of_nil in Hin);
    apply list_elem_of_singleton in Hin; by simplify_eq.
Qed.

Lemma float_key_takes_integer_path_witness :
  ((dtype (keys_in 3 GDF_FLOAT32) = GDF_FLOAT32 ∧ int32_t = int32_t)
   ∨ (dtype (keys_in 3 GDF_FLOAT32) = GDF_FLOAT64 ∧ int32_t = int64_t))
  ∧ dispatch_groupby_type Reference.HashAggregate sum_op 1
      [keys_in 3 GDF_FLOAT32] (vals_in 3 GDF_INT32)
      [keys_out 3 GDF_FLOAT32] (agg_out 3 GDF_INT32) true
    = dispatch_aggregation_type Reference.HashAggregate int32_t sum_op 1
        [keys_in 3 GDF_FLOAT32] (vals_in 3 GDF_INT32)
        [keys_out 3 GDF_FLOAT32] (agg_out 3 GDF_INT32) true.
Proof.
  assert ((dtype (keys_in 3 GDF_FLOAT32) = GDF_FLOAT32 ∧ int32_t = int32_t)
   ∨ (dtype (keys_in 3 GDF_FLOAT32) = GDF_FLOAT64 ∧ int32_t = int64_t)) as H
    by (left; split; reflexivity).
  split; [exact H|].
  exact (proj1 (float_key_takes_integer_path Reference.HashAggregate sum_op 1
                  (keys_in 3 GDF_FLOAT32) [] (vals_in 3 GDF_INT32)
                  [keys_out 3 GDF_FLOAT32] (agg_out 3 GDF_INT32) true int32_t H)).
Defined.

(** C10: the column-count check of [gdf_group_by_hash] rejects exactly
    the requests with more than one grouping column.  With [ncols <= 1],
    zero included, the call is the dispatch, which reads entry 0 of the
    grouping-column array whatever [ncols] says: out of bounds on an empty
    array, and otherwise the tag of the first column picks the path. *)
Theorem zero_columns_reach_dispatch
    GroupbyHash op ncols ins in_agg outs out_agg sort d :
  ncols <= 1 →
  gdf_group_by_hash GroupbyHash op ncols ins in_agg outs out_agg sort d
  = dispatch_groupby_type GroupbyHash op ncols ins in_agg outs out_agg sort d
  ∧ error_code (result (gdf_group_by_hash GroupbyHash op ncols ins in_agg
                          outs out_agg sort) d)
    ≠ Some GDF_GROUPBY_TOO_MANY_COLUMNS
  ∧ dispatch_groupby_type GroupbyHash op ncols ins in_agg outs out_agg sort d
    = match ins with
      | [] => (Halt OutOfBounds, d)
      | in0 :: _ =>
          match equal_width_integer (dtype in0) with
          | Some gt =>
              dispatch_aggregation_type GroupbyHash gt op ncols ins in_agg
                outs out_agg sort d
          | None => (Done (mk_outputs GDF_UNSUPPORTED_DTYPE outs out_agg), d)
          end
      end.
Proof.
  intros Hle. split_and!.
  - unfold gdf_group_by_hash. destruct (decide (ncols > 1)); [lia|done].
  - destruct (gdf_group_by_hash_pass GroupbyHash op ncols ins in_agg outs out_agg sort d);
      simpl; by (try lia).
  - destruct ins as [|in0 ins']; [done|].
    rewrite dispatch_groupby_type_path. by destruct (equal_width_integer _).
Qed.

Lemma zero_columns_reach_dispatch_witness :
  0 <= 1
  ∧ gdf_group_by_hash Reference.HashAggregate sum_op 0
      [] (vals_in 3 GDF_INT32) [keys_out 3 GDF_INT32] (agg_out 3 GDF_INT32) true
      (memory [1; 1; 2] [4; 6; 10])
    = (Halt OutOfBounds, memory [1; 1; 2] [4; 6; 10]).
Proof.
  assert (0 <= 1) as H by lia.
  split; [exact H|].
  destruct (zero_columns_reach_dispatch Reference.HashAggregate sum_op 0
              [] (vals_in 3 GDF_INT32) [keys_out 3 GDF_INT32] (agg_out 3 GDF_INT32)
              true (memory [1; 1; 2] [4; 6; 10]) H) as (E1 & _ & E2).
  exact (eq_trans E1 E2).
Defined.

(** ** Rejected requests *)

(** C3 (as the code has it): with more than one grouping column,
    [gdf_group_by_hash] returns [GDF_GROUPBY_TOO_MANY_COLUMNS] as an
    ordinary result and leaves the device untouched (no backend
    invocation).  [gdf_group_by_hash_avg] guards the column count with an
    assertion instead: built with assertions on, it stops at the failed
    assertion, before any allocation or backend invocation, and returns
    no error value. *)
Theorem too_many_columns
    GroupbyHash op ncols ins in_agg outs out_agg sort d :
  ncols > 1 →
  gdf_group_by_hash GroupbyHash op ncols ins in_agg outs out_agg sort d
  = (Done (mk_outputs GDF_GROUPBY_TOO_MANY_COLUMNS outs out_agg), d)
  ∧ gdf_group_by_hash_avg GroupbyHash false ncols ins in_agg outs out_agg d
    = (Halt AssertionFailed, d).
Proof.
  intros Hn. split.
  - unfold gdf_group_by_hash. by destruct (decide (ncols > 1)).
  - rewrite gdf_group_by_hash_avg_path. unfold bind, assert.
    rewrite bool_decide_eq_false_2 by lia. done.
Qed.

Lemma too_many_columns_witness :
  2 > 1
  ∧ gdf_group_by_hash Reference.HashAggregate sum_op 2
      [keys_in 3 GDF_INT32; keys_in 3 GDF_INT32] (vals_in 3 GDF_INT32)
      [keys_out 3 GDF_INT32; keys_out 3 GDF_INT32] (agg_out 3 GDF_INT32) true
      (memory [1; 1; 2] [4; 6; 10])
    = (Done (mk_outputs GDF_GROUPBY_TOO_MANY_COLUMNS
               [keys_out 3 GDF_INT32; keys_out 3 GDF_INT32] (agg_out 3 GDF_INT32)),
       memory [1; 1; 2] [4; 6; 10]).
Proof.
  assert (2 > 1) as H by lia.
  split; [exact H|].
  exact (proj1 (too_many_columns Reference.HashAggregate sum_op 2
                  [keys_in 3 GDF_INT32; keys_in 3 GDF_INT32] (vals_in 3 GDF_INT32)
                  [keys_out 3 GDF_INT32; keys_out 3 GDF_INT32] (agg_out 3 GDF_INT32)
                  true (memory [1; 1; 2] [4; 6; 10]) H)).
Defined.

(** C3 as stated fails for the AVG entry point: a request with two
    grouping columns gets no [GDF_GROUPBY_TOO_MANY_COLUMNS] from
    [gdf_group_by_hash_avg].  With assertions on the call aborts; with
    [NDEBUG] it runs both passes' checks, transforms, and reports
    success. *)
Lemma avg_two_columns_no_error_value :
  2 > 1
  ∧ error_code
      (result (gdf_group_by_hash_avg Reference.HashAggregate false 2
                 [keys_in 3 GDF_INT32; keys_in 3 GDF_INT32] (vals_in 3 GDF_INT32)
                 [keys_out 3 GDF_INT32; keys_out 3 GDF_INT32] (agg_out 3 GDF_INT32))
              (memory [1; 1; 2] [4; 6; 10]))
    ≠ Some GDF_GROUPBY_TOO_MANY_COLUMNS
  ∧ result (gdf_group_by_hash_avg Reference.HashAggregate false 2
              [keys_in 3 GDF_INT32; keys_in 3 GDF_INT32] (vals_in 3 GDF_INT32)
              [keys_out 3 GDF_INT32; keys_out 3 GDF_INT32] (agg_out 3 GDF_INT32))
           (memory [1; 1; 2] [4; 6; 10])
    = Halt AssertionFailed
  ∧ error_code
      (result (gdf_group_by_hash_avg Reference.HashAggregate true 2
                 [keys_in 3 GDF_INT32; keys_in 3 GDF_INT32] (vals_in 3 GDF_INT32)
                 [keys_out 3 GDF_INT32; keys_out 3 GDF_INT32] (agg_out 3 GDF_INT32))
              (memory [1; 1; 2] [4; 6; 10]))
    = Some GDF_SUCCESS.
Proof. split_and!; [lia|by vm_compute..]. Qed.

(** C4 (as the code has it): [gdf_group_by_hash] returns
    [GDF_UNSUPPORTED_DTYPE] with the device and the output columns
    untouched when the key column's tag is outside the six supported
    ones, or when the tag the second dispatch level looks at is: the
    output column's for COUNT, the value column's for every other
    operator.  [gdf_group_by_hash_avg] does the same when the value
    column's tag is unsupported. *)
Theorem unsupported_tag_rejected GroupbyHash :
  (∀ op ncols in0 ins' in_agg outs out_agg sort d,
     ncols <= 1 →
     supported (dtype in0) = false
     ∨ supported (selecting_tag op in_agg out_agg) = false →
     gdf_group_by_hash GroupbyHash op ncols (in0 :: ins') in_agg outs out_agg sort d
     = (Done (mk_outputs GDF_UNSUPPORTED_DTYPE outs out_agg), d))
  ∧ (∀ NDEBUG ncols ins in_agg outs out_agg d,
       ncols = 1 →
       supported (dtype in_agg) = false →
       gdf_group_by_hash_avg GroupbyHash NDEBUG ncols ins in_agg outs out_agg d
       = (Done (mk_outputs GDF_UNSUPPORTED_DTYPE outs out_agg), d)).
Proof.
  assert (∀ t, supported t = false → value_path t = None) as Hv
    by (by intros []).
  assert (∀ t, supported t = false → equal_width_integer t = None) as Hk
    by (by intros []).
  split.
  - intros op ncols in0 ins' in_agg outs out_agg sort d Hle Hun.
    unfold gdf_group_by_hash. destruct (decide (ncols > 1)); [lia|].
    rewrite dispatch_groupby_type_path.
    destruct (equal_width_integer (dtype in0)) as [gt|] eqn:Hgt; [|done].
    destruct Hun as [Hun|Hun]; [by rewrite (Hk _ Hun) in Hgt|].
    by rewrite dispatch_aggregation_type_path, (Hv _ Hun).
  - intros NDEBUG ncols ins in_agg outs out_agg d -> Hun.
    rewrite gdf_group_by_hash_avg_path, (Hv _ Hun).
    unfold bind, assert. by rewrite orb_true_r.
Qed.

Lemma unsupported_tag_rejected_witness :
  1 <= 1
  ∧ (supported (dtype (keys_in 3 (GDF_other 0))) = false
     ∨ supported (selecting_tag sum_op (vals_in 3 GDF_INT32) (agg_out 3 GDF_INT32))
       = false)
  ∧ gdf_group_by_hash Reference.HashAggregate sum_op 1
      [keys_in 3 (GDF_other 0)] (vals_in 3 GDF_INT32)
      [keys_out 3 (GDF_other 0)] (agg_out 3 GDF_INT32) true
      (memory [1; 1; 2] [4; 6; 10])
    = (Done (mk_outputs GDF_UNSUPPORTED_DTYPE
               [keys_out 3 (GDF_other 0)] (agg_out 3 GDF_INT32)),
       memory [1; 1; 2] [4; 6; 10])
  ∧ 1 = 1
  ∧ supported (dtype (vals_in 3 (GDF_other 7))) = false
  ∧ gdf_group_by_hash_avg Reference.HashAggregate false 1
      [keys_in 3 GDF_INT32] (vals_in 3 (GDF_other 7))
      [keys_out 3 GDF_INT32] (agg_out 3 GDF_INT32)
      (memory [1; 1; 2] [4; 6; 10])
    = (Done (mk_outputs GDF_UNSUPPORTED_DTYPE
               [keys_out 3 GDF_INT32] (agg_out 3 GDF_INT32)),
       memory [1; 1; 2] [4; 6; 10]).
Proof.
  assert (1 <= 1) as H1 by lia.
  assert (supported (dtype (keys_in 3 (GDF_other 0))) = false
     ∨ supported (selecting_tag sum_op (vals_in 3 GDF_INT32) (agg_out 3 GDF_INT32))
       = false) as H2 by (left; reflexivity).
  assert (supported (dtype (vals_in 3 (GDF_other 7))) = false) as H3
    by reflexivity.
  split_and!; [exact H1|exact H2| |reflexivity|exact H3|].
  - exact (proj1 (unsupported_tag_rejected Reference.HashAggregate)
             sum_op 1 (keys_in 3 (GDF_other 0)) [] (vals_in 3 GDF_INT32)
             [keys_out 3 (GDF_other 0)] (agg_out 3 GDF_INT32) true
             (memory [1; 1; 2] [4; 6; 10]) H1 H2).
  - exact (proj2 (unsupported_tag_rejected Reference.HashAggregate)
             false 1 [keys_in 3 GDF_INT32] (vals_in 3 (GDF_other 7))
             [keys_out 3 GDF_INT32] (agg_out 3 GDF_INT32)
             (memory [1; 1; 2] [4; 6; 10]) eq_refl H3).
Defined.

(** C4 as stated fails: a COUNT request whose value column carries an
    unsupported tag is not rejected, since COUNT dispatches on the
    output column's tag; the primitive is invoked and the call
    succeeds. *)
Lemma count_ignores_value_tag :
  supported (dtype (vals_in 3 (GDF_other 0))) = false
  ∧ error_code
      (result (gdf_group_by_hash Reference.HashAggregate count_op 1
                 [keys_in 3 GDF_INT32] (vals_in 3 (GDF_other 0))
                 [keys_out 3 GDF_INT32] (agg_out 3 GDF_INT64) true)
              (memory [1; 1; 2] [4; 6; 10]))
    ≠ Some GDF_UNSUPPORTED_DTYPE
  ∧ error_code
      (result (gdf_group_by_hash Reference.HashAggregate count_op 1
                 [keys_in 3 GDF_INT32] (vals_in 3 (GDF_other 0))
                 [keys_out 3 GDF_INT32] (agg_out 3 GDF_INT64) true)
              (memory [1; 1; 2] [4; 6; 10]))
    = Some GDF_SUCCESS
  ∧ events (gdf_group_by_hash Reference.HashAggregate count_op 1
              [keys_in 3 GDF_INT32] (vals_in 3 (GDF_other 0))
              [keys_out 3 GDF_INT32] (agg_out 3 GDF_INT64) true)
           (memory [1; 1; 2] [4; 6; 10])
    = [Hash (invocation int32_t int64_t count_op 3)
            (cudaSuccess [(VI 1, VI 2); (VI 2, VI 1)])].
Proof. split_and!; by vm_compute. Qed.

(** An unsupported key tag under AVG: both passes return
    [GDF_UNSUPPORTED_DTYPE] without reaching the primitive, their codes
    are dropped, the transform runs over the two fresh buffers, and the
    call reports success. *)
Example avg_unsupported_key_reports_success :
  let run := gdf_group_by_hash_avg Reference.HashAggregate false 1
               [keys_in 3 (GDF_other 0)] (vals_in 3 GDF_INT32)
               [keys_out 3 (GDF_other 0)] (agg_out 3 GDF_INT32) in
  let d := memory [1; 1; 2] [4; 6; 10] in
  error_code (result run d) = Some GDF_SUCCESS
  ∧ events run d
    = [Malloc 5 24; Malloc 6 12; Transform int32_t int32_t 6 5 4 3; Free 5; Free 6].
Proof. by vm_compute. Qed.

(** ** The AVG composition *)

Lemma allocated_trace n t d :
  trace (allocated n t d) = trace d ++ [Malloc (fresh_block d) (n * sizeof t)].
Proof. done. Qed.

Lemma released_trace p d : trace (released p d) = trace d ++ [Free p].
Proof. done. Qed.

Lemma averaged_trace st vt avg_column count_column sum_column d :
  trace (averaged st vt avg_column count_column sum_column d)
  = trace d ++ [Transform st vt (data sum_column) (data count_column)
                  (data avg_column) (size count_column)].
Proof. done. Qed.

(** A call of [gdf_group_by_hash_avg] either stops at the assertion,
    rejects the value column's tag, or is [multi_pass_avg] at the element
    type of that tag. *)
Lemma gdf_group_by_hash_avg_cases GroupbyHash NDEBUG ncols ins in_agg outs out_agg d :
  gdf_group_by_hash_avg GroupbyHash NDEBUG ncols ins in_agg outs out_agg d
  = (Halt AssertionFailed, d)
  ∨ gdf_group_by_hash_avg GroupbyHash NDEBUG ncols ins in_agg outs out_agg d
    = (Done (mk_outputs GDF_UNSUPPORTED_DTYPE outs out_agg), d)
  ∨ ∃ sum_type,
      value_path (dtype in_agg) = Some sum_type
      ∧ gdf_group_by_hash_avg GroupbyHash NDEBUG ncols ins in_agg outs out_agg d
        = multi_pass_avg GroupbyHash sum_type ncols ins in_agg outs out_agg d.
Proof.
  rewrite gdf_group_by_hash_avg_path. unfold bind, assert.
  destruct (NDEBUG || bool_decide (ncols = 1)); [|by left].
  destruct (value_path (dtype in_agg)) as [sum_type|]; [|by right; left].
  right; right. by exists sum_type.
Qed.

(** The shape of every run of [gdf_group_by_hash_avg] that returns
    [GDF_SUCCESS]. *)
Lemma avg_success_run GroupbyHash NDEBUG ncols ins in_agg outs out_agg d o :
  result (gdf_group_by_hash_avg GroupbyHash NDEBUG ncols ins in_agg outs out_agg) d
  = Done o →
  err o = GDF_SUCCESS →
  ∃ sum_type avg_type o1 d2 o2 d4,
    value_path (dtype in_agg) = Some sum_type
    ∧ value_path (dtype out_agg) = Some avg_type
    ∧ pass GroupbyHash count_op ncols ins in_agg outs
        (mk_column (fresh_block d) None (size out_agg) GDF_INT64) true
        (allocated (size out_agg) size_t d) (Done o1) d2
    ∧ pass GroupbyHash sum_op ncols ins in_agg (groupby_out o1)
        (mk_column (fresh_block d2) None (size out_agg) (gdf_col_type sum_type)) true
        (allocated (size out_agg) sum_type d2) (Done o2) d4
    ∧ o = mk_outputs GDF_SUCCESS (groupby_out o2)
            (set_size (size (aggregation_out o1)) out_agg)
    ∧ final (gdf_group_by_hash_avg GroupbyHash NDEBUG ncols ins in_agg outs out_agg) d
      = released (data (aggregation_out o2))
          (released (data (aggregation_out o1))
             (averaged sum_type avg_type out_agg
                (aggregation_out o1) (aggregation_out o2) d4)).
Proof.
  unfold result, final. intros Hr He.
  destruct (gdf_group_by_hash_avg_cases GroupbyHash NDEBUG ncols ins in_agg outs out_agg d)
    as [E|[E|(sum_type & Hs & E)]]; rewrite E in Hr |- *; simpl in Hr.
  - discriminate.
  - injection Hr as <-. discriminate.
  - pose proof (multi_pass_avg_composed GroupbyHash sum_type ncols ins in_agg
                  outs out_agg d) as C.
    unfold result, final in C.
    destruct (multi_pass_avg GroupbyHash sum_type ncols ins in_agg outs out_agg d)
      as [r d'] eqn:Em; simpl in *; subst r.
    inversion C; subst; try discriminate.
    by exists sum_type, avg_type, o1, d2, o2, d4.
Qed.

(** Whatever the primitive answers, the only codes
    [gdf_group_by_hash_avg] can return are [GDF_SUCCESS] and
    [GDF_UNSUPPORTED_DTYPE]: the codes of its two passes are never passed
    on. *)
Lemma avg_error_codes GroupbyHash NDEBUG ncols ins in_agg outs out_agg d o :
  result (gdf_group_by_hash_avg GroupbyHash NDEBUG ncols ins in_agg outs out_agg) d
  = Done o →
  err o = GDF_SUCCESS ∨ err o = GDF_UNSUPPORTED_DTYPE.
Proof.
  unfold result. intros Hr.
  destruct (gdf_group_by_hash_avg_cases GroupbyHash NDEBUG ncols ins in_agg outs out_agg d)
    as [E|[E|(sum_type & Hs & E)]]; rewrite E in Hr; simpl in Hr.
  - discriminate.
  - injection Hr as <-. by right.
  - pose proof (multi_pass_avg_composed GroupbyHash sum_type ncols ins in_agg
                  outs out_agg d) as C.
    unfold result, final in C.
    destruct (multi_pass_avg GroupbyHash sum_type ncols ins in_agg outs out_agg d)
      as [r d'] eqn:Em; simpl in *; subst r.
    inversion C; subst; [by right|by left].
Qed.

(** The events of a successful AVG call: two allocations, each followed
    by what its pass adds, the transform, and the two releases. *)
Lemma avg_success_events GroupbyHash NDEBUG ncols ins in_agg outs out_agg d o :
  result (gdf_group_by_hash_avg GroupbyHash NDEBUG ncols ins in_agg outs out_agg) d
  = Done o →
  err o = GDF_SUCCESS →
  ∃ sum_type avg_type o1 d2 o2 d4 ev1 ev2,
    value_path (dtype in_agg) = Some sum_type
    ∧ value_path (dtype out_agg) = Some avg_type
    ∧ pass GroupbyHash count_op ncols ins in_agg outs
      (mk_column (fresh_block d) None (size out_agg) GDF_INT64) true
      (allocated (size out_agg) size_t d) (Done o1) d2
    ∧ pass GroupbyHash sum_op ncols ins in_agg (groupby_out o1)
        (mk_column (fresh_block d2) None (size out_agg) (gdf_col_type sum_type)) true
        (allocated (size out_agg) sum_type d2) (Done o2) d4
    ∧ trace d2 = trace (allocated (size out_agg) size_t d) ++ ev1
    ∧ trace d4 = trace (allocated (size out_agg) sum_type d2) ++ ev2
    ∧ size (aggregation_out o) = size (aggregation_out o1)
    ∧ events (gdf_group_by_hash_avg GroupbyHash NDEBUG ncols ins in_agg outs out_agg) d
      = Malloc (fresh_block d) (size out_agg * sizeof size_t) :: ev1
        ++ Malloc (fresh_block d2) (size out_agg * sizeof sum_type) :: ev2
        ++ [Transform sum_type avg_type (data (aggregation_out o2))
              (data (aggregation_out o1)) (data out_agg)
              (size (aggregation_out o1));
            Free (data (aggregation_out o1)); Free (data (aggregation_out o2))]
    ∧ final (gdf_group_by_hash_avg GroupbyHash NDEBUG ncols ins in_agg outs out_agg) d
      = released (data (aggregation_out o2))
          (released (data (aggregation_out o1))
             (averaged sum_type avg_type out_agg
                (aggregation_out o1) (aggregation_out o2) d4)).
Proof.
  intros Hr He.
  destruct (avg_success_run _ _ _ _ _ _ _ _ _ Hr He)
    as (sum_type & avg_type & o1 & d2 & o2 & d4 & Hs & Ha & P1 & P2 & -> & Hf).
  destruct (pass_trace _ _ _ _ _ _ _ _ _ _ _ P1) as (ev1 & Ht1 & _).
  destruct (pass_trace _ _ _ _ _ _ _ _ _ _ _ P2) as (ev2 & Ht2 & _).
  exists sum_type, avg_type, o1, d2, o2, d4, ev1, ev2.
  split_and!; try done.
  unfold events. rewrite Hf. apply added_app.
  rewrite !released_trace, averaged_trace, Ht2, allocated_trace, Ht1, allocated_trace.
  by rewrite <- !app_assoc.
Qed.

(** Sizes where the passes succeed.  A successful [gdf_group_by_hash]
    made exactly one invocation, and both the first output key column and
    the output value column carry its group count; a successful
    [gdf_group_by_hash_avg] whose COUNT pass reported [N] groups leaves
    [N] in the size of the output aggregation column.  A successful
    [gdf_group_by_hash_avg] whose COUNT pass did not succeed is not
    covered. *)
Lemma success_sets_sizes GroupbyHash :
  (∀ op ncols ins in_agg outs out_agg sort d o,
     result (gdf_group_by_hash GroupbyHash op ncols ins in_agg outs out_agg sort) d
     = Done o →
     err o = GDF_SUCCESS →
     ∃ c groups,
       events (gdf_group_by_hash GroupbyHash op ncols ins in_agg outs out_agg sort) d
       = [Hash c (cudaSuccess groups)]
       ∧ size <$> head (groupby_out o) = Some (out_size groups)
       ∧ size (aggregation_out o) = out_size groups)
  ∧ (∀ NDEBUG ncols ins in_agg outs out_agg d o c groups,
       result (gdf_group_by_hash_avg GroupbyHash NDEBUG ncols ins in_agg
                 outs out_agg) d
       = Done o →
       err o = GDF_SUCCESS →
       Hash c (cudaSuccess groups)
         ∈ events (gdf_group_by_hash_avg GroupbyHash NDEBUG ncols ins in_agg
                     outs out_agg) d →
       call_op c = count_op →
       size (aggregation_out o) = out_size groups).
Proof.
  split.
  - intros op ncols ins in_agg outs out_agg sort d o Hr He.
    pose proof (gdf_group_by_hash_pass GroupbyHash op ncols ins in_agg outs
                  out_agg sort d) as P.
    unfold events. rewrite Hr in P.
    inversion P as [| | | | |in0 ins' gt vt out0 outs' groups ? ? ? ? ? c Hc];
      subst; try discriminate.
    exists c, groups. by rewrite added_log.
  - intros NDEBUG ncols ins in_agg outs out_agg d o c groups Hr He Hin Hop.
    destruct (avg_success_events _ _ _ _ _ _ _ _ _ Hr He)
      as (sum_type & avg_type & o1 & d2 & o2 & d4 & ev1 & ev2
          & _ & _ & P1 & P2 & Ht1 & Ht2 & -> & Hev & _).
    destruct (pass_trace _ _ _ _ _ _ _ _ _ _ _ P1) as (ev1' & Ht1' & H1).
    destruct (pass_trace _ _ _ _ _ _ _ _ _ _ _ P2) as (ev2' & Ht2' & H2).
    assert (ev1' = ev1) as -> by (rewrite Ht1 in Ht1'; by simplify_list_eq).
    assert (ev2' = ev2) as -> by (rewrite Ht2 in Ht2'; by simplify_list_eq).
    rewrite Hev in Hin.
    apply elem_of_cons in Hin as [?|Hin]; [done|].
    apply elem_of_app in Hin as [Hin|Hin].
    { destruct (H1 _ Hin) as (c' & rep & [= <- <-] & _ & _ & _ & out0 & outs' & _ & _ & _ & Ho).
      by injection Ho as ->. }
    apply elem_of_cons in Hin as [?|Hin]; [done|].
    apply elem_of_app in Hin as [Hin|Hin].
    { destruct (H2 _ Hin) as (c' & rep & [= <- <-] & _ & Hop' & _). congruence. }
    repeat (apply elem_of_cons in Hin as [?|Hin]; [done|]).
    by apply elem_of_nil in Hin.
Qed.

Lemma success_sets_sizes_witness :
  Hash (invocation_to 5 int32_t int64_t count_op 3)
       (cudaSuccess [(VI 1, VI 2); (VI 2, VI 1)])
    ∈ events (gdf_group_by_hash_avg Reference.HashAggregate false 1
                [keys_in 3 GDF_INT32] (vals_in 3 GDF_INT32)
                [keys_out 3 GDF_INT32] (agg_out 3 GDF_INT32))
             (memory [1; 1; 2] [4; 6; 10])
  ∧ size (set_size 2 (agg_out 3 GDF_INT32))
    = out_size [(VI 1, VI 2); (VI 2, VI 1)].
Proof.
  assert (result (gdf_group_by_hash_avg Reference.HashAggregate false 1
                [keys_in 3 GDF_INT32] (vals_in 3 GDF_INT32)
                [keys_out 3 GDF_INT32] (agg_out 3 GDF_INT32))
             (memory [1; 1; 2] [4; 6; 10])
          = Done (mk_outputs GDF_SUCCESS [set_size 2 (keys_out 3 GDF_INT32)]
                    (set_size 2 (agg_out 3 GDF_INT32)))) as Hr
    by (vm_compute; reflexivity).
  assert (Hash (invocation_to 5 int32_t int64_t count_op 3)
       (cudaSuccess [(VI 1, VI 2); (VI 2, VI 1)])
    ∈ events (gdf_group_by_hash_avg Reference.HashAggregate false 1
                [keys_in 3 GDF_INT32] (vals_in 3 GDF_INT32)
                [keys_out 3 GDF_INT32] (agg_out 3 GDF_INT32))
             (memory [1; 1; 2] [4; 6; 10])) as Hin
    by (vm_compute; do 2 constructor).
  split; [exact Hin|].
  exact (proj2 (success_sets_sizes Reference.HashAggregate)
           false 1 [keys_in 3 GDF_INT32] (vals_in 3 GDF_INT32)
           [keys_out 3 GDF_INT32] (agg_out 3 GDF_INT32)
           (memory [1; 1; 2] [4; 6; 10]) _ _ _ Hr eq_refl Hin eq_refl).
Defined.

(** C7 (the code at a failing input): six rows in three groups, output
    columns of capacity 6, and a backend that fails on the COUNT pass.
    [gdf_group_by_hash_avg] returns [GDF_SUCCESS]; the only group count
    the backend reported in the call is 3, from the SUM pass, and the
    first output key column carries it; the output aggregation column
    still has its capacity 6 as size, and none of its six elements has a
    defined value.  On the same request with a backend that does not
    fail, both sizes are 3. *)
Theorem avg_success_with_size_at_capacity :
  result (gdf_group_by_hash_avg Reference.HashAggregate false 1
            [keys_in 6 GDF_INT32] (vals_in 6 GDF_INT32)
            [keys_out 6 GDF_INT32] (agg_out 6 GDF_INT32))
         (memory [1; 1; 2; 3; 3; 3] [10; 20; 5; 1; 2; 3])
  = Done (mk_outputs GDF_SUCCESS [set_size 3 (keys_out 6 GDF_INT32)]
            (set_size 3 (agg_out 6 GDF_INT32)))
  ∧ result (gdf_group_by_hash_avg (Reference.failing_at count_op) false 1
            [keys_in 6 GDF_INT32] (vals_in 6 GDF_INT32)
            [keys_out 6 GDF_INT32] (agg_out 6 GDF_INT32))
         (memory [1; 1; 2; 3; 3; 3] [10; 20; 5; 1; 2; 3])
  = Done (mk_outputs GDF_SUCCESS [set_size 3 (keys_out 6 GDF_INT32)]
            (agg_out 6 GDF_INT32))
  ∧ events (gdf_group_by_hash_avg (Reference.failing_at count_op) false 1
              [keys_in 6 GDF_INT32] (vals_in 6 GDF_INT32)
              [keys_out 6 GDF_INT32] (agg_out 6 GDF_INT32))
           (memory [1; 1; 2; 3; 3; 3] [10; 20; 5; 1; 2; 3])
    = [Malloc 5 48;
       Hash (invocation_to 5 int32_t int64_t count_op 6) (cudaFailure [] []);
       Malloc 6 24;
       Hash (invocation_to 6 int32_t int32_t sum_op 6)
            (cudaSuccess [(VI 1, VI 30); (VI 2, VI 5); (VI 3, VI 6)]);
       Transform int32_t int32_t 6 5 4 6;
       Free 5; Free 6]
  ∧ out_size [(VI 1, VI 30); (VI 2, VI 5); (VI 3, VI 6)] = 3%nat
  ∧ size (agg_out 6 GDF_INT32) = 6%nat
  ∧ heap (final (gdf_group_by_hash_avg (Reference.failing_at count_op) false 1
                   [keys_in 6 GDF_INT32] (vals_in 6 GDF_INT32)
                   [keys_out 6 GDF_INT32] (agg_out 6 GDF_INT32))
                (memory [1; 1; 2; 3; 3; 3] [10; 20; 5; 1; 2; 3])) !! 4%positive
    = Some [None; None; None; None; None; None].
Proof. split_and!; by vm_compute. Qed.

(** ** Errors and buffers of the AVG composition *)

(** C1 (the code at failing inputs): a backend forced to fail on the
    COUNT pass, and one forced to fail on the SUM pass.  In both runs
    [gdf_group_by_hash_avg] goes on after the failed pass, transforms,
    releases both buffers and returns [GDF_SUCCESS]: the failure never
    reaches the caller. *)
Theorem avg_drops_pass_errors :
  result (gdf_group_by_hash_avg (Reference.failing_at count_op) false 1
            [keys_in 3 GDF_INT32] (vals_in 3 GDF_INT32)
            [keys_out 3 GDF_INT32] (agg_out 3 GDF_INT32))
         (memory [1; 1; 2] [4; 6; 10])
  = Done (mk_outputs GDF_SUCCESS [set_size 2 (keys_out 3 GDF_INT32)]
            (agg_out 3 GDF_INT32))
  ∧ events (gdf_group_by_hash_avg (Reference.failing_at count_op) false 1
              [keys_in 3 GDF_INT32] (vals_in 3 GDF_INT32)
              [keys_out 3 GDF_INT32] (agg_out 3 GDF_INT32))
           (memory [1; 1; 2] [4; 6; 10])
    = [Malloc 5 24;
       Hash (invocation_to 5 int32_t int64_t count_op 3) (cudaFailure [] []);
       Malloc 6 12;
       Hash (invocation_to 6 int32_t int32_t sum_op 3)
            (cudaSuccess [(VI 1, VI 10); (VI 2, VI 10)]);
       Transform int32_t int32_t 6 5 4 3;
       Free 5; Free 6]
  ∧ result (gdf_group_by_hash_avg (Reference.failing_at sum_op) false 1
              [keys_in 3 GDF_INT32] (vals_in 3 GDF_INT32)
              [keys_out 3 GDF_INT32] (agg_out 3 GDF_INT32))
           (memory [1; 1; 2] [4; 6; 10])
    = Done (mk_outputs GDF_SUCCESS [set_size 2 (keys_out 3 GDF_INT32)]
              (set_size 2 (agg_out 3 GDF_INT32)))
  ∧ events (gdf_group_by_hash_avg (Reference.failing_at sum_op) false 1
              [keys_in 3 GDF_INT32] (vals_in 3 GDF_INT32)
              [keys_out 3 GDF_INT32] (agg_out 3 GDF_INT32))
           (memory [1; 1; 2] [4; 6; 10])
    = [Malloc 5 24;
       Hash (invocation_to 5 int32_t int64_t count_op 3)
            (cudaSuccess [(VI 1, VI 2); (VI 2, VI 1)]);
       Malloc 6 12;
       Hash (invocation_to 6 int32_t int32_t sum_op 3) (cudaFailure [] []);
       Transform int32_t int32_t 6 5 4 2;
       Free 5; Free 6].
Proof. split_and!; by vm_compute. Qed.

(** The same for every backend and every request:
    [gdf_group_by_hash_avg] never returns [GDF_CUDA_ERROR]. *)
Lemma avg_never_reports_backend_failure
    GroupbyHash NDEBUG ncols ins in_agg outs out_agg d :
  error_code
    (result (gdf_group_by_hash_avg GroupbyHash NDEBUG ncols ins in_agg outs out_agg) d)
  ≠ Some GDF_CUDA_ERROR.
Proof.
  destruct (result _ d) as [o|f] eqn:Hr; [|done].
  destruct (avg_error_codes _ _ _ _ _ _ _ _ _ Hr) as [He|He]; simpl; congruence.
Qed.

(** C2 (the code at a failing input): the output column carries a tag
    outside the six supported ones.  Both intermediate buffers are
    allocated and both passes run, then the switch on the output tag
    returns [GDF_UNSUPPORTED_DTYPE] straight away: two allocations, no
    release, and the two blocks are still on the device. *)
Theorem avg_leaks_on_unsupported_output :
  error_code
    (result (gdf_group_by_hash_avg Reference.HashAggregate false 1
               [keys_in 3 GDF_INT32] (vals_in 3 GDF_INT32)
               [keys_out 3 GDF_INT32] (agg_out 3 (GDF_other 0)))
            (memory [1; 1; 2] [4; 6; 10]))
  = Some GDF_UNSUPPORTED_DTYPE
  ∧ allocations
      (events (gdf_group_by_hash_avg Reference.HashAggregate false 1
                 [keys_in 3 GDF_INT32] (vals_in 3 GDF_INT32)
                 [keys_out 3 GDF_INT32] (agg_out 3 (GDF_other 0)))
              (memory [1; 1; 2] [4; 6; 10]))
    = 2%nat
  ∧ deallocations
      (events (gdf_group_by_hash_avg Reference.HashAggregate false 1
                 [keys_in 3 GDF_INT32] (vals_in 3 GDF_INT32)
                 [keys_out 3 GDF_INT32] (agg_out 3 (GDF_other 0)))
              (memory [1; 1; 2] [4; 6; 10]))
    = 0%nat
  ∧ heap (final (gdf_group_by_hash_avg Reference.HashAggregate false 1
                   [keys_in 3 GDF_INT32] (vals_in 3 GDF_INT32)
                   [keys_out 3 GDF_INT32] (agg_out 3 (GDF_other 0)))
                (memory [1; 1; 2] [4; 6; 10])) !! 5%positive
    = Some [Some (VI 2); Some (VI 1); None]
  ∧ heap (final (gdf_group_by_hash_avg Reference.HashAggregate false 1
                   [keys_in 3 GDF_INT32] (vals_in 3 GDF_INT32)
                   [keys_out 3 GDF_INT32] (agg_out 3 (GDF_other 0)))
                (memory [1; 1; 2] [4; 6; 10])) !! 6%positive
    = Some [Some (VI 10); Some (VI 10); None].
Proof. split_and!; by vm_compute. Qed.

Lemma hash_events_no_blocks (evs : list event) :
  (∀ e, e ∈ evs → ∃ c rep, e = Hash c rep) →
  allocations evs = 0%nat ∧ deallocations evs = 0%nat.
Proof.
  unfold allocations, deallocations.
  induction evs as [|e evs IH]; intros H; [done|].
  destruct (H e) as (c & rep & ->); [left|].
  rewrite !filter_cons; simpl. apply IH. intros e' ?. apply H. by right.
Qed.

Lemma allocations_app (l k : list event) :
  allocations (l ++ k) = (allocations l + allocations k)%nat.
Proof. unfold allocations. by rewrite filter_app, length_app. Qed.

Lemma deallocations_app (l k : list event) :
  deallocations (l ++ k) = (deallocations l + deallocations k)%nat.
Proof. unfold deallocations. by rewrite filter_app, length_app. Qed.

(** On every path that ends in [GDF_SUCCESS], pass failures included,
    the two allocations are matched by the two releases, and the blocks
    released are the blocks allocated. *)
Lemma avg_success_is_balanced
    GroupbyHash NDEBUG ncols ins in_agg outs out_agg d o :
  result (gdf_group_by_hash_avg GroupbyHash NDEBUG ncols ins in_agg outs out_agg) d
  = Done o →
  err o = GDF_SUCCESS →
  allocations
    (events (gdf_group_by_hash_avg GroupbyHash NDEBUG ncols ins in_agg outs out_agg) d)
  = 2%nat
  ∧ deallocations
      (events (gdf_group_by_hash_avg GroupbyHash NDEBUG ncols ins in_agg outs out_agg) d)
    = 2%nat.
Proof.
  intros Hr He.
  destruct (avg_success_events _ _ _ _ _ _ _ _ _ Hr He)
    as (sum_type & avg_type & o1 & d2 & o2 & d4 & ev1 & ev2
        & _ & _ & P1 & P2 & Ht1 & Ht2 & _ & -> & _).
  destruct (pass_trace _ _ _ _ _ _ _ _ _ _ _ P1) as (ev1' & Ht1' & H1).
  destruct (pass_trace _ _ _ _ _ _ _ _ _ _ _ P2) as (ev2' & Ht2' & H2).
  assert (ev1' = ev1) as -> by (rewrite Ht1 in Ht1'; by simplify_list_eq).
  assert (ev2' = ev2) as -> by (rewrite Ht2 in Ht2'; by simplify_list_eq).
  destruct (hash_events_no_blocks ev1) as [A1 F1].
  { intros e Hin. destruct (H1 e Hin) as (c & rep & -> & _). eauto. }
  destruct (hash_events_no_blocks ev2) as [A2 F2].
  { intros e Hin. destruct (H2 e Hin) as (c & rep & -> & _). eauto. }
  rewrite (app_comm_cons ev1), (app_comm_cons ev2).
  change (Malloc ?p ?n :: ?l) with ([Malloc p n] ++ l).
  rewrite !allocations_app, !deallocations_app, A1, A2, F1, F2. done.
Qed.

(** ** The average of one group *)

Lemma wrap_in_range t z :
  min_int t <= z <= max_int t → wrap t z = z.
Proof.
  unfold wrap, min_int, max_int.
  destruct t; simpl; intros H;
    try (rewrite Z.mod_small by lia; lia).
Qed.

Lemma wrap_range t z : min_int t <= wrap t z <= max_int t.
Proof.
  unfold wrap, min_int, max_int.
  destruct t; simpl;
    match goal with
    | |- context [?a mod ?m] => pose proof (Z.mod_pos_bound a m ltac:(lia)); lia
    end.
Qed.

Lemma quot_between lo hi s n :
  lo <= 0 <= hi → lo <= s <= hi → 1 <= n → lo <= Z.quot s n <= hi.
Proof.
  intros Hb Hs Hn.
  destruct (Z.le_gt_cases 0 s) as [Hp|Hneg].
  - pose proof (Z.quot_pos s n Hp ltac:(lia)).
    pose proof (Z.quot_le_upper_bound s n s ltac:(lia) ltac:(nia)). lia.
  - pose proof (Z.quot_opp_l s n ltac:(lia)) as Ho.
    pose proof (Z.quot_pos (- s) n ltac:(lia) ltac:(lia)).
    pose proof (Z.quot_le_upper_bound (- s) n (- s) ltac:(lia) ltac:(nia)). lia.
Qed.

(** Integral SUM and output types, and a count that the output type can
    hold: the divisor is not zero, the quotient does not overflow, and
    the average is the truncated quotient taken to the output type. *)
Lemma average_cell_integral ts tv st vt s n :
  value_path ts = Some st → value_path tv = Some vt →
  is_floating st = false → is_floating vt = false →
  1 <= n <= max_int vt →
  average_cell st vt (Some (VI s)) (Some (VI n))
  = Some (VI (wrap vt (Z.quot (wrap st s) n))).
Proof.
  intros Hs Hv Fs Fv Hn.
  pose proof (wrap_range st s) as Hr.
  assert (n <= max_int int64_t) as Hn64
    by (destruct tv; simplify_eq/=; unfold max_int in *; simpl in *; lia).
  set (t := common_type st vt).
  assert (is_floating t = false ∧ (min_int t <= min_int st ∧ max_int st <= max_int t)
          ∧ max_int vt <= max_int t ∧ min_int t <= 0 <= max_int t) as (Ft & Hst & Hvt & Ht).
  { subst t. destruct ts, tv; simplify_eq/=; try done;
      unfold min_int, max_int; simpl; lia. }
  pose proof (quot_between (min_int t) (max_int t) (wrap st s) n Ht ltac:(lia) ltac:(lia)).
  unfold average_cell, average_op; simpl. rewrite Fs; simpl.
  fold t. rewrite Fv, Ft; simpl.
  rewrite (wrap_in_range size_t n)
    by (unfold min_int, max_int in *; simpl in *; lia).
  rewrite (wrap_in_range vt n) by (unfold min_int; destruct vt; simpl in *; lia).
  rewrite (wrap_in_range t (wrap st s)) by lia.
  rewrite Ft; simpl.
  rewrite (wrap_in_range t n) by lia.
  destruct (decide (n = 0)); [lia|].
  destruct (decide (min_int t <= Z.quot (wrap st s) n <= max_int t)); [|lia].
  simpl. by rewrite Fv.
Qed.

Lemma convert_integral t z :
  is_floating t = false → convert t (VI z) = Some (VI (wrap t z)).
Proof. unfold convert. by intros ->. Qed.

(** ** Device memory *)

Lemma fetch_store p i src (h : gmap ptr buffer) :
  fetch p i (store p src h)
  = b ← h !! p; old ← b !! i; default old (src !! i).
Proof.
  unfold fetch, store, overwrite. rewrite lookup_alter_eq.
  destruct (h !! p) as [b|]; [|done]. simpl.
  rewrite list_lookup_imap. by destruct (b !! i).
Qed.

Lemma fetch_store_ne p q i src (h : gmap ptr buffer) :
  p ≠ q → fetch q i (store p src h) = fetch q i h.
Proof. intros. unfold fetch, store. by rewrite lookup_alter_ne. Qed.

Lemma fetch_delete_ne p q i (h : gmap ptr buffer) :
  p ≠ q → fetch q i (delete p h) = fetch q i h.
Proof. intros. unfold fetch. by rewrite lookup_delete_ne. Qed.

Lemma fetch_insert_ne p q i b (h : gmap ptr buffer) :
  p ≠ q → fetch q i (<[p := b]> h) = fetch q i h.
Proof. intros. unfold fetch. by rewrite lookup_insert_ne. Qed.

Lemma lookup_store_ne p q src (h : gmap ptr buffer) :
  p ≠ q → store p src h !! q = h !! q.
Proof. intros. unfold store. by rewrite lookup_alter_ne. Qed.

Lemma lookup_store_is_Some p q src (h : gmap ptr buffer) :
  is_Some (store p src h !! q) ↔ is_Some (h !! q).
Proof.
  unfold store. destruct (decide (p = q)) as [->|].
  - rewrite lookup_alter_eq. by rewrite fmap_is_Some.
  - by rewrite lookup_alter_ne.
Qed.

Lemma store_length p q src (h : gmap ptr buffer) b :
  h !! q = Some b → ∃ b', store p src h !! q = Some b' ∧ length b' = length b.
Proof.
  intros Hq. unfold store. destruct (decide (p = q)) as [->|].
  - rewrite lookup_alter_eq, Hq. simpl. eexists. split; [done|].
    unfold overwrite. by rewrite length_imap.
  - rewrite lookup_alter_ne by done. eauto.
Qed.

Lemma written_is_Some c rep q (h : gmap ptr buffer) :
  is_Some (written c rep h !! q) ↔ is_Some (h !! q).
Proof. destruct rep; simpl; by rewrite !lookup_store_is_Some. Qed.

Lemma written_length c rep q (h : gmap ptr buffer) b :
  h !! q = Some b → ∃ b', written c rep h !! q = Some b' ∧ length b' = length b.
Proof.
  intros Hq. destruct rep as [groups|keys vals]; simpl.
  - destruct (store_length (out_group_col c) q (Some <$> groups.*1) h b Hq)
      as (b1 & H1 & L1).
    destruct (store_length (out_agg_col c) q (Some <$> groups.*2) _ b1 H1)
      as (b2 & H2 & L2).
    exists b2. split; [done|congruence].
  - destruct (store_length (out_group_col c) q keys h b Hq) as (b1 & H1 & L1).
    destruct (store_length (out_agg_col c) q vals _ b1 H1) as (b2 & H2 & L2).
    exists b2. split; [done|congruence].
Qed.

Lemma fresh_block_not_live d : heap d !! fresh_block d = None.
Proof. apply not_elem_of_dom. unfold fresh_block. apply is_fresh. Qed.

(** The aggregates of a successful invocation, read back from a block
    that was all indeterminate and is not the key block. *)
Lemma fetch_written_aggregate c groups (h : gmap ptr buffer) cap i k v :
  out_group_col c ≠ out_agg_col c →
  h !! out_agg_col c = Some (replicate cap None) →
  (i < cap)%nat →
  groups !! i = Some (k, v) →
  fetch (out_agg_col c) i (written c (cudaSuccess groups) h) = Some v.
Proof.
  intros Hne Hb Hi Hg. simpl. rewrite fetch_store.
  rewrite lookup_store_ne, Hb by done. simpl.
  rewrite lookup_replicate_2 by done. simpl.
  by rewrite list_lookup_fmap, list_lookup_fmap, Hg.
Qed.

(** ** The averages a successful call writes *)

(** The invocations in the trace of a successful AVG call are those of
    its two passes. *)
Lemma hash_in_avg_events c rep p1 n1 ev1 p2 n2 ev2 st vt a b q m f1 f2 :
  Hash c rep ∈ Malloc p1 n1 :: ev1
               ++ Malloc p2 n2 :: ev2 ++ [Transform st vt a b q m; Free f1; Free f2] →
  Hash c rep ∈ ev1 ∨ Hash c rep ∈ ev2.
Proof.
  intros Hin.
  apply elem_of_cons in Hin as [?|Hin]; [done|].
  apply elem_of_app in Hin as [Hin|Hin]; [by left|].
  apply elem_of_cons in Hin as [?|Hin]; [done|].
  apply elem_of_app in Hin as [Hin|Hin]; [by right|].
  repeat (apply elem_of_cons in Hin as [?|Hin]; [done|]).
  by apply elem_of_nil in Hin.
Qed.

Lemma heap_after_average st vt avg_column count_column sum_column d :
  heap (released (data sum_column)
          (released (data count_column)
             (averaged st vt avg_column count_column sum_column d)))
  = delete (data sum_column)
      (delete (data count_column)
         (store (data avg_column)
            ((λ i, average_cell st vt (fetch (data sum_column) i (heap d))
                     (fetch (data count_column) i (heap d)))
               <$> seq 0 (size count_column))
            (heap d))).
Proof. done. Qed.

(** Where both passes succeed: after a successful
    [gdf_group_by_hash_avg] whose COUNT pass reported the groups [gc]
    and whose SUM pass reported [gs], element [i] of the output buffer,
    for every [i] below the COUNT pass's group count, is [average_op]
    of [sum[i]] and [count[i]]: the count is converted to the output
    element type, the division is evaluated in the common arithmetic
    type of the SUM and the output element types, and the quotient is
    converted to the output type.  For integral types and a count between
    1 and the largest value of the output type the divisor is not zero
    and the element is the truncated quotient, taken to the output
    type.  Counts outside that range are not covered. *)
Lemma average_is_sum_over_count
    GroupbyHash NDEBUG ncols ins in_agg outs out_agg d o
    sum_type avg_type cc gc cs gs b0 i k n k' s :
  result (gdf_group_by_hash_avg GroupbyHash NDEBUG ncols ins in_agg outs out_agg) d
  = Done o →
  err o = GDF_SUCCESS →
  value_path (dtype in_agg) = Some sum_type →
  value_path (dtype out_agg) = Some avg_type →
  Hash cc (cudaSuccess gc)
    ∈ events (gdf_group_by_hash_avg GroupbyHash NDEBUG ncols ins in_agg outs out_agg) d →
  call_op cc = count_op →
  Hash cs (cudaSuccess gs)
    ∈ events (gdf_group_by_hash_avg GroupbyHash NDEBUG ncols ins in_agg outs out_agg) d →
  call_op cs = sum_op →
  (∀ out0, head outs = Some out0 → is_Some (heap d !! data out0)) →
  heap d !! data out_agg = Some b0 →
  (out_size gc ≤ size out_agg)%nat →
  (i < length b0)%nat →
  gc !! i = Some (k, n) →
  gs !! i = Some (k', s) →
  fetch (data out_agg) i
    (heap (final (gdf_group_by_hash_avg GroupbyHash NDEBUG ncols ins in_agg
                    outs out_agg) d))
  = average_cell sum_type avg_type (Some s) (Some n)
  ∧ (∀ sz nz,
       s = VI sz → n = VI nz →
       is_floating sum_type = false → is_floating avg_type = false →
       1 <= nz <= max_int avg_type →
       fetch (data out_agg) i
         (heap (final (gdf_group_by_hash_avg GroupbyHash NDEBUG ncols ins in_agg
                         outs out_agg) d))
       = Some (VI (wrap avg_type (Z.quot (wrap sum_type sz) nz)))).
Proof.
  intros Hr He Hs Ha Hcc Hopc Hcs Hops Hlive Hb0 Hcap Hi Hgc Hgs.
  cut (fetch (data out_agg) i
         (heap (final (gdf_group_by_hash_avg GroupbyHash NDEBUG ncols ins in_agg
                         outs out_agg) d))
       = average_cell sum_type avg_type (Some s) (Some n)).
  { intros E. split; [done|]. intros sz nz -> -> Fs Fa Hnz. rewrite E.
    by eapply average_cell_integral. }
  destruct (avg_success_events _ _ _ _ _ _ _ _ _ Hr He)
    as (st & vt & o1 & d2 & o2 & d4 & ev1 & ev2
        & Hs' & Ha' & P1 & P2 & Ht1 & Ht2 & _ & Hev & Hf).
  assert (st = sum_type) as -> by congruence.
  assert (vt = avg_type) as -> by congruence.
  rewrite Hev in Hcc, Hcs. rewrite Hf, heap_after_average. clear Hev Hf Hr He.
  destruct (pass_trace _ _ _ _ _ _ _ _ _ _ _ P1) as (ev1' & Ht1' & H1).
  destruct (pass_trace _ _ _ _ _ _ _ _ _ _ _ P2) as (ev2' & Ht2' & H2).
  assert (ev1' = ev1) as -> by (rewrite Ht1 in Ht1'; by simplify_list_eq).
  assert (ev2' = ev2) as -> by (rewrite Ht2 in Ht2'; by simplify_list_eq).
  clear P1 P2 Ht1 Ht2 Ht1' Ht2'.
  set (cap := size out_agg) in *.
  set (pc := fresh_block d) in *.
  set (ps := fresh_block d2) in *.
  set (pa := data out_agg) in *.
  (* the COUNT pass *)
  apply hash_in_avg_events in Hcc as [Hcc|Hcc]; cycle 1.
  { destruct (H2 _ Hcc) as (c & rep & [= <- <-] & _ & Hop & _). congruence. }
  destruct (H1 _ Hcc)
    as (c & rep & Heq & _ & _ & Hd2 & Hrest).
  injection Heq as <- <-.
  destruct Hrest as (out0 & outs' & Houts & Hk1 & Hv1 & Ho1).
  injection Ho1 as Ho1.
  (* the SUM pass *)
  apply hash_in_avg_events in Hcs as [Hcs|Hcs].
  { destruct (H1 _ Hcs) as (c & rep & [= <- <-] & _ & Hop & _). congruence. }
  destruct (H2 _ Hcs)
    as (c & rep & Heq & _ & _ & Hd4 & Hrest).
  injection Heq as <- <-.
  destruct Hrest as (out0' & outs'' & Houts' & Hk2 & Hv2 & Ho2).
  injection Ho2 as Ho2.
  clear H1 H2 Hcc Hcs.
  set (pk := data out0) in *.
  assert (out_group_col cs = pk) as Hk2'.
  { rewrite Hk2. rewrite Ho1 in Houts'. by injection Houts' as <- _. }
  assert (out_agg_col cc = pc) as Hv1' by done.
  assert (out_agg_col cs = ps) as Hv2' by done.
  assert (data (aggregation_out o1) = pc ∧ size (aggregation_out o1) = out_size gc)
    as [Dc Sc] by (by rewrite Ho1).
  assert (data (aggregation_out o2) = ps) as Ds by (by rewrite Ho2).
  rewrite Dc, Ds, Sc.
  set (h1 := <[pc := replicate cap None]> (heap d)).
  assert (heap d2 = written cc (cudaSuccess gc) h1) as Hh2 by (by rewrite Hd2).
  set (h3 := <[ps := replicate cap None]> (heap d2)).
  assert (heap d4 = written cs (cudaSuccess gs) h3) as Hh4 by (by rewrite Hd4).
  clear Hd2 Hd4 Ho1 Ho2 Houts' Hk2 Hv1 Hv2 Dc Ds Sc.
  (* the blocks are distinct where it matters *)
  assert (is_Some (heap d !! pk)) as Lk by (apply Hlive; by rewrite Houts).
  assert (heap d !! pc = None) as Fc by apply fresh_block_not_live.
  assert (pc ≠ pk) as Nck by (intros E; rewrite E, Fc in *; by destruct Lk).
  assert (pc ≠ pa) as Nca by (intros E; rewrite <- E, Fc in Hb0; done).
  assert (heap d2 !! ps = None) as Fs by apply fresh_block_not_live.
  assert (ps ≠ pc) as Nsc.
  { intros E. rewrite E, Hh2 in Fs. apply eq_None_not_Some in Fs. apply Fs.
    apply written_is_Some. subst h1. by rewrite lookup_insert_eq. }
  assert (ps ≠ pk) as Nsk.
  { intros E. rewrite E, Hh2 in Fs. apply eq_None_not_Some in Fs. apply Fs.
    apply written_is_Some. subst h1. by rewrite lookup_insert_ne. }
  assert (ps ≠ pa) as Nsa.
  { intros E. rewrite E, Hh2 in Fs. apply eq_None_not_Some in Fs. apply Fs.
    apply written_is_Some. subst h1. by rewrite lookup_insert_ne, Hb0. }
  assert (i < cap)%nat as Hic.
  { apply lookup_lt_Some in Hgc. unfold out_size in Hcap. lia. }
  (* the output block keeps its length *)
  assert (∃ b4, heap d4 !! pa = Some b4 ∧ length b4 = length b0) as (b4 & Hb4 & L4).
  { assert (h1 !! pa = Some b0) as E1
      by (subst h1; by rewrite lookup_insert_ne).
    destruct (written_length cc (cudaSuccess gc) pa h1 b0 E1) as (b2 & E2 & L2).
    assert (h3 !! pa = Some b2) as E3
      by (subst h3; by rewrite lookup_insert_ne, Hh2).
    destruct (written_length cs (cudaSuccess gs) pa h3 b2 E3) as (b & E4 & L).
    exists b. rewrite Hh4. split; [done|congruence]. }
  destruct (lookup_lt_is_Some_2 b4 i ltac:(lia)) as [old Hold].
  (* what the transform reads *)
  assert (fetch ps i (heap d4) = Some s) as Rs.
  { rewrite Hh4, <- Hv2'.
    apply (fetch_written_aggregate cs gs h3 cap i k' s); try done.
    - by rewrite Hk2', Hv2'.
    - rewrite Hv2'. subst h3. by rewrite lookup_insert_eq. }
  assert (fetch pc i (heap d4) = Some n) as Rc.
  { rewrite Hh4. simpl. rewrite Hk2', Hv2'.
    rewrite !fetch_store_ne by done.
    subst h3. rewrite fetch_insert_ne by done.
    rewrite Hh2, <- Hv1'.
    apply (fetch_written_aggregate cc gc h1 cap i k n); try done.
    - by rewrite Hk1, Hv1'.
    - rewrite Hv1'. subst h1. by rewrite lookup_insert_eq. }
  (* what it leaves *)
  rewrite !fetch_delete_ne by done.
  rewrite fetch_store, Hb4. simpl. rewrite Hold. simpl.
  rewrite list_lookup_fmap, lookup_seq_lt by (by eapply lookup_lt_Some).
  simpl. by rewrite Rs, Rc.
Qed.

Lemma average_is_sum_over_count_witness :
  Hash (invocation_to 5 int32_t int64_t count_op 3)
       (cudaSuccess [(VI 1, VI 2); (VI 2, VI 1)])
    ∈ events (gdf_group_by_hash_avg Reference.HashAggregate false 1
                [keys_in 3 GDF_INT32] (vals_in 3 GDF_INT32)
                [keys_out 3 GDF_INT32] (agg_out 3 GDF_INT32))
             (memory [1; 1; 2] [4; 6; 10])
  ∧ Hash (invocation_to 6 int32_t int32_t sum_op 3)
         (cudaSuccess [(VI 1, VI 10); (VI 2, VI 10)])
      ∈ events (gdf_group_by_hash_avg Reference.HashAggregate false 1
                  [keys_in 3 GDF_INT32] (vals_in 3 GDF_INT32)
                  [keys_out 3 GDF_INT32] (agg_out 3 GDF_INT32))
               (memory [1; 1; 2] [4; 6; 10])
  ∧ 1 <= 2 <= max_int int32_t
  ∧ fetch 4 0
      (heap (final (gdf_group_by_hash_avg Reference.HashAggregate false 1
                      [keys_in 3 GDF_INT32] (vals_in 3 GDF_INT32)
                      [keys_out 3 GDF_INT32] (agg_out 3 GDF_INT32))
                   (memory [1; 1; 2] [4; 6; 10])))
    = Some (VI (wrap int32_t (Z.quot (wrap int32_t 10) 2))).
Proof.
  assert (Hash (invocation_to 5 int32_t int64_t count_op 3)
       (cudaSuccess [(VI 1, VI 2); (VI 2, VI 1)])
    ∈ events (gdf_group_by_hash_avg Reference.HashAggregate false 1
                [keys_in 3 GDF_INT32] (vals_in 3 GDF_INT32)
                [keys_out 3 GDF_INT32] (agg_out 3 GDF_INT32))
             (memory [1; 1; 2] [4; 6; 10])) as Hc
    by (vm_compute; do 2 constructor).
  assert (Hash (invocation_to 6 int32_t int32_t sum_op 3)
         (cudaSuccess [(VI 1, VI 10); (VI 2, VI 10)])
      ∈ events (gdf_group_by_hash_avg Reference.HashAggregate false 1
                  [keys_in 3 GDF_INT32] (vals_in 3 GDF_INT32)
                  [keys_out 3 GDF_INT32] (agg_out 3 GDF_INT32))
               (memory [1; 1; 2] [4; 6; 10])) as Hs
    by (vm_compute; do 4 constructor).
  assert (1 <= 2 <= max_int int32_t) as Hn
    by (vm_compute; split; discriminate).
  split; [exact Hc|]. split; [exact Hs|]. split; [exact Hn|].
  refine (proj2 (average_is_sum_over_count Reference.HashAggregate false 1
            [keys_in 3 GDF_INT32] (vals_in 3 GDF_INT32)
            [keys_out 3 GDF_INT32] (agg_out 3 GDF_INT32) (memory [1; 1; 2] [4; 6; 10])
            (mk_outputs GDF_SUCCESS [set_size 2 (keys_out 3 GDF_INT32)]
               (set_size 2 (agg_out 3 GDF_INT32)))
            int32_t int32_t
            (invocation_to 5 int32_t int64_t count_op 3) [(VI 1, VI 2); (VI 2, VI 1)]
            (invocation_to 6 int32_t int32_t sum_op 3) [(VI 1, VI 10); (VI 2, VI 10)]
            [None; None; None] 0 (VI 1) (VI 2) (VI 1) (VI 10)
            _ _ _ _ Hc _ Hs _ _ _ _ _ _ _) 10 2 _ _ _ _ _);
    try reflexivity.
  - intros out0 E. injection E as <-. vm_compute. eexists. reflexivity.
  - vm_compute. lia.
  - simpl. lia.
  - exact Hn.
Defined.

(** C5 (the code at failing inputs): the lambda of [compute_average]
    converts the count to the output element type before it divides.
    Two hundred rows of value 1 under one key, [int32_t] values and an
    [int8_t] output column: COUNT reports 200 and SUM reports 200; the
    count converts to -56, and the element stored for the group is -3,
    not 1.  Two hundred and fifty-six rows of value 0 under one key,
    [int8_t] values and output: COUNT reports 256, which converts to 0;
    the division is by zero and the element has no defined value.  Both
    calls return [GDF_SUCCESS].  With one hundred rows instead of two
    hundred, the count fits [int8_t] and the element is 1. *)
Theorem average_divides_by_narrowed_count :
  events (gdf_group_by_hash_avg Reference.HashAggregate false 1
            [keys_in 200 GDF_INT32] (vals_in 200 GDF_INT32)
            [keys_out 200 GDF_INT32] (agg_out 200 GDF_INT8))
         (memory (replicate 200 7) (replicate 200 1))
  = [Malloc 5 1600;
     Hash (invocation_to 5 int32_t int64_t count_op 200)
          (cudaSuccess [(VI 7, VI 200)]);
     Malloc 6 800;
     Hash (invocation_to 6 int32_t int32_t sum_op 200)
          (cudaSuccess [(VI 7, VI 200)]);
     Transform int32_t int8_t 6 5 4 1;
     Free 5; Free 6]
  ∧ result (gdf_group_by_hash_avg Reference.HashAggregate false 1
              [keys_in 200 GDF_INT32] (vals_in 200 GDF_INT32)
              [keys_out 200 GDF_INT32] (agg_out 200 GDF_INT8))
           (memory (replicate 200 7) (replicate 200 1))
    = Done (mk_outputs GDF_SUCCESS [set_size 1 (keys_out 200 GDF_INT32)]
              (set_size 1 (agg_out 200 GDF_INT8)))
  ∧ convert int8_t (VI 200) = Some (VI (-56))
  ∧ fetch 4 0
      (heap (final (gdf_group_by_hash_avg Reference.HashAggregate false 1
                      [keys_in 200 GDF_INT32] (vals_in 200 GDF_INT32)
                      [keys_out 200 GDF_INT32] (agg_out 200 GDF_INT8))
                   (memory (replicate 200 7) (replicate 200 1))))
    = Some (VI (-3))
  ∧ Z.quot 200 200 = 1
  ∧ fetch 4 0
      (heap (final (gdf_group_by_hash_avg Reference.HashAggregate false 1
                      [keys_in 100 GDF_INT32] (vals_in 100 GDF_INT32)
                      [keys_out 100 GDF_INT32] (agg_out 100 GDF_INT8))
                   (memory (replicate 100 7) (replicate 100 1))))
    = Some (VI 1)
  ∧ events (gdf_group_by_hash_avg Reference.HashAggregate false 1
              [keys_in 256 GDF_INT32] (vals_in 256 GDF_INT8)
              [keys_out 256 GDF_INT32] (agg_out 256 GDF_INT8))
           (memory (replicate 256 7) (replicate 256 0))
    = [Malloc 5 2048;
       Hash (invocation_to 5 int32_t int64_t count_op 256)
            (cudaSuccess [(VI 7, VI 256)]);
       Malloc 6 256;
       Hash (invocation_to 6 int32_t int8_t sum_op 256) (cudaSuccess [(VI 7, VI 0)]);
       Transform int8_t int8_t 6 5 4 1;
       Free 5; Free 6]
  ∧ result (gdf_group_by_hash_avg Reference.HashAggregate false 1
              [keys_in 256 GDF_INT32] (vals_in 256 GDF_INT8)
              [keys_out 256 GDF_INT32] (agg_out 256 GDF_INT8))
           (memory (replicate 256 7) (replicate 256 0))
    = Done (mk_outputs GDF_SUCCESS [set_size 1 (keys_out 256 GDF_INT32)]
              (set_size 1 (agg_out 256 GDF_INT8)))
  ∧ convert int8_t (VI 256) = Some (VI 0)
  ∧ fetch 4 0
      (heap (final (gdf_group_by_hash_avg Reference.HashAggregate false 1
                      [keys_in 256 GDF_INT32] (vals_in 256 GDF_INT8)
                      [keys_out 256 GDF_INT32] (agg_out 256 GDF_INT8))
                   (memory (replicate 256 7) (replicate 256 0))))
    = None.
Proof. split_and!; by vm_compute. Qed.

(** * Further properties of the code *)

(** ** One pass, on every path *)

(** The invocation a pass makes, read back from the trace: its
    arguments are the fields of the first key column, of the value
    column and of the output columns, and its answer is the
    primitive's on the device as the pass found it. *)
Lemma pass_call GroupbyHash op ncols ins in_agg outs out_agg sort d r d' c rep :
  pass GroupbyHash op ncols ins in_agg outs out_agg sort d r d' →
  Hash c rep ∈ added d d' →
  ∃ in0 ins' out0 outs' gt vt,
    ncols <= 1 ∧ ins = in0 :: ins' ∧ outs = out0 :: outs'
    ∧ equal_width_integer (dtype in0) = Some gt
    ∧ value_path (selecting_tag op in_agg out_agg) = Some vt
    ∧ c = mk_call gt vt op (data in0) (data in_agg) (size in0)
            (data out0) (data out_agg) sort
    ∧ rep = GroupbyHash d c
    ∧ d' = log (Hash c rep) (written c rep (heap d)) d.
Proof.
  destruct 1; rewrite ?added_refl, ?added_log; intros Hin;
    try (by apply elem_of_nil in Hin);
    apply list_elem_of_singleton in Hin; injection Hin as -> ->;
    by exists in0, ins', out0, outs', gt, vt.
Qed.

Lemma dom_store p src (h : gmap ptr buffer) : dom (store p src h) = dom h.
Proof. unfold store. by rewrite dom_alter_L. Qed.

Lemma dom_written c rep (h : gmap ptr buffer) : dom (written c rep h) = dom h.
Proof. destruct rep; simpl; by rewrite !dom_store. Qed.

Lemma pass_keeps GroupbyHash op ncols ins in_agg outs out_agg sort d o d' :
  pass GroupbyHash op ncols ins in_agg outs out_agg sort d (Done o) d' →
  data (aggregation_out o) = data out_agg
  ∧ dtype (aggregation_out o) = dtype out_agg
  ∧ data <$> groupby_out o = data <$> outs
  ∧ dom (heap d') = dom (heap d).
Proof.
  inversion 1; subst; simpl; by rewrite ?dom_store.
Qed.

(** Every error of [gdf_group_by_hash], not only the primitive's,
    hands the output columns back as they came; unless the error is the
    primitive's, the device has not been touched at all. *)
Theorem error_leaves_outputs
    GroupbyHash op ncols ins in_agg outs out_agg sort d o :
  result (gdf_group_by_hash GroupbyHash op ncols ins in_agg outs out_agg sort) d
  = Done o →
  err o ≠ GDF_SUCCESS →
  groupby_out o = outs ∧ aggregation_out o = out_agg
  ∧ (err o ≠ GDF_CUDA_ERROR →
     final (gdf_group_by_hash GroupbyHash op ncols ins in_agg outs out_agg sort) d
     = d).
Proof.
  intros Hr He.
  pose proof (gdf_group_by_hash_pass GroupbyHash op ncols ins in_agg outs
                out_agg sort d) as P.
  unfold result, final in *.
  destruct (gdf_group_by_hash GroupbyHash op ncols ins in_agg outs out_agg sort d)
    as [r d'] eqn:E; simpl in *; subst r.
  inversion P; subst; simpl in *; done.
Qed.

Lemma error_leaves_outputs_witness :
  GDF_UNSUPPORTED_DTYPE ≠ GDF_SUCCESS
  ∧ final (gdf_group_by_hash Reference.HashAggregate sum_op 1
             [keys_in 3 GDF_INT32] (vals_in 3 (GDF_other 3))
             [keys_out 3 GDF_INT32] (agg_out 3 GDF_INT32) true)
          (memory [1; 1; 2] [4; 6; 10])
    = memory [1; 1; 2] [4; 6; 10].
Proof.
  assert (GDF_UNSUPPORTED_DTYPE ≠ GDF_SUCCESS) as H by discriminate.
  split; [exact H|].
  refine (proj2 (proj2 (error_leaves_outputs Reference.HashAggregate sum_op 1
            [keys_in 3 GDF_INT32] (vals_in 3 (GDF_other 3))
            [keys_out 3 GDF_INT32] (agg_out 3 GDF_INT32) true
            (memory [1; 1; 2] [4; 6; 10])
            (mk_outputs GDF_UNSUPPORTED_DTYPE
               [keys_out 3 GDF_INT32] (agg_out 3 GDF_INT32)) _ H)) _).
  - vm_compute. reflexivity.
  - discriminate.
Defined.

(** A successful [gdf_group_by_hash] changes nothing in the output
    columns but two size fields: the first output key column and the
    output value column get the same new size, the pointers, tags and
    masks stay, and the other output key columns are not touched. *)
Theorem success_changes_sizes_only
    GroupbyHash op ncols ins in_agg outs out_agg sort d o :
  result (gdf_group_by_hash GroupbyHash op ncols ins in_agg outs out_agg sort) d
  = Done o →
  err o = GDF_SUCCESS →
  ∃ out0 outs' n,
    outs = out0 :: outs'
    ∧ groupby_out o = set_size n out0 :: outs'
    ∧ aggregation_out o = set_size n out_agg.
Proof.
  intros Hr He.
  pose proof (gdf_group_by_hash_pass GroupbyHash op ncols ins in_agg outs
                out_agg sort d) as P.
  rewrite Hr in P. inversion P; subst; simpl in *; try discriminate.
  by exists out0, outs', (out_size groups).
Qed.

Lemma success_changes_sizes_only_witness :
  ∃ out0 outs' n,
    [keys_out 6 GDF_INT32; keys_out 9 GDF_FLOAT32] = out0 :: outs'
    ∧ [set_size 3 (keys_out 6 GDF_INT32); keys_out 9 GDF_FLOAT32]
      = set_size n out0 :: outs'
    ∧ set_size 3 (agg_out 6 GDF_INT32) = set_size n (agg_out 6 GDF_INT32).
Proof.
  refine (success_changes_sizes_only Reference.HashAggregate sum_op 1
            [keys_in 6 GDF_INT32] (vals_in 6 GDF_INT32)
            [keys_out 6 GDF_INT32; keys_out 9 GDF_FLOAT32] (agg_out 6 GDF_INT32) true
            (memory [1; 1; 2; 3; 3; 3] [10; 20; 5; 1; 2; 3])
            (mk_outputs GDF_SUCCESS
               [set_size 3 (keys_out 6 GDF_INT32); keys_out 9 GDF_FLOAT32]
               (set_size 3 (agg_out 6 GDF_INT32))) _ _).
  - vm_compute. reflexivity.
  - reflexivity.
Defined.

(** [gdf_group_by_hash] never allocates or releases device memory and
    never runs a transform: all it can add to the trace is one
    invocation of the primitive, and the set of live blocks is the same
    after the call as before. *)
Theorem pass_uses_no_memory
    GroupbyHash op ncols ins in_agg outs out_agg sort d :
  (length (events (gdf_group_by_hash GroupbyHash op ncols ins in_agg
                     outs out_agg sort) d) <= 1)%nat
  ∧ Forall (λ e, ∃ c rep, e = Hash c rep)
      (events (gdf_group_by_hash GroupbyHash op ncols ins in_agg outs out_agg sort) d)
  ∧ dom (heap (final (gdf_group_by_hash GroupbyHash op ncols ins in_agg
                        outs out_agg sort) d))
    = dom (heap d).
Proof.
  unfold events.
  destruct (gdf_group_by_hash_pass GroupbyHash op ncols ins in_agg outs out_agg sort d);
    rewrite ?added_refl, ?added_log; simpl; rewrite ?dom_store;
    split_and!; try done; try lia; repeat constructor; eauto.
Qed.

(** With at most one column announced, a supported key tag and a
    supported value tag (output tag for COUNT), [gdf_group_by_hash] is
    one invocation of the primitive, over all thirty-six pairs of tags:
    the call carries the pointers of the first key column, of the value
    column and of the two output columns, the key column's size and the
    sort flag; the return code is [GDF_SUCCESS] or [GDF_CUDA_ERROR] as
    the primitive answers. *)
Theorem supported_request_is_one_invocation
    GroupbyHash op ncols in0 ins' in_agg out0 outs' out_agg sort d gt vt :
  ncols <= 1 →
  equal_width_integer (dtype in0) = Some gt →
  value_path (selecting_tag op in_agg out_agg) = Some vt →
  gdf_group_by_hash GroupbyHash op ncols (in0 :: ins') in_agg
    (out0 :: outs') out_agg sort d
  = let c := mk_call gt vt op (data in0) (data in_agg) (size in0)
               (data out0) (data out_agg) sort in
    let r := GroupbyHash d c in
    (Done match r with
          | cudaSuccess groups =>
              mk_outputs GDF_SUCCESS
                (set_size (out_size groups) out0 :: outs')
                (set_size (out_size groups) out_agg)
          | cudaFailure _ _ =>
              mk_outputs GDF_CUDA_ERROR (out0 :: outs') out_agg
          end,
     log (Hash c r) (written c r (heap d)) d).
Proof.
  intros Hn Hk Hv. unfold gdf_group_by_hash.
  destruct (decide (ncols > 1)); [lia|].
  rewrite dispatch_groupby_type_path, Hk, dispatch_aggregation_type_path, Hv.
  unfold dispatched_groupby, bind, launch; simpl.
  by destruct (GroupbyHash d _).
Qed.

Lemma supported_request_is_one_invocation_witness :
  0 <= 1
  ∧ equal_width_integer (dtype (keys_in 3 GDF_FLOAT64)) = Some int64_t
  ∧ value_path (selecting_tag min_op (vals_in 3 GDF_INT16) (agg_out 3 GDF_INT16))
    = Some int16_t
  ∧ events (gdf_group_by_hash Reference.failing min_op 0
              [keys_in 3 GDF_FLOAT64] (vals_in 3 GDF_INT16)
              [keys_out 3 GDF_FLOAT64] (agg_out 3 GDF_INT16) false)
           (memory [1; 1; 2] [4; 6; 10])
    = [Hash (mk_call int64_t int16_t min_op 1 2 3 3 4 false) (cudaFailure [] [])].
Proof.
  assert (0 <= 1) as H1 by lia.
  assert (equal_width_integer (dtype (keys_in 3 GDF_FLOAT64)) = Some int64_t) as H2
    by reflexivity.
  assert (value_path (selecting_tag min_op (vals_in 3 GDF_INT16) (agg_out 3 GDF_INT16))
          = Some int16_t) as H3 by reflexivity.
  split; [exact H1|]. split; [exact H2|]. split; [exact H3|].
  unfold events, final.
  rewrite (supported_request_is_one_invocation Reference.failing min_op 0
             (keys_in 3 GDF_FLOAT64) [] (vals_in 3 GDF_INT16)
             (keys_out 3 GDF_FLOAT64) [] (agg_out 3 GDF_INT16) false
             (memory [1; 1; 2] [4; 6; 10]) int64_t int16_t H1 H2 H3).
  reflexivity.
Defined.

(** [gdf_group_by_hash] reads the key array at entry 0 only and takes
    the input length from that column: with [ncols <= 1] the entries after
    the first, the value of [ncols] itself and the size field of the
    value column do not influence the call.  In particular no check
    compares the sizes of the key and value columns. *)
Theorem only_first_key_column_counts
    GroupbyHash op ncols ncols' in0 ins1 ins2 in_agg n outs out_agg sort d :
  ncols <= 1 →
  ncols' <= 1 →
  gdf_group_by_hash GroupbyHash op ncols (in0 :: ins1) in_agg outs out_agg sort d
  = gdf_group_by_hash GroupbyHash op ncols' (in0 :: ins2) (set_size n in_agg)
      outs out_agg sort d.
Proof.
  intros H1 H2. unfold gdf_group_by_hash.
  destruct (decide (ncols > 1)); [lia|]. destruct (decide (ncols' > 1)); [lia|].
  rewrite !dispatch_groupby_type_path.
  destruct (equal_width_integer (dtype in0)) as [gt|]; [|done].
  rewrite !dispatch_aggregation_type_path.
  assert (selecting_tag op (set_size n in_agg) out_agg
          = selecting_tag op in_agg out_agg) as -> by (by destruct op).
  by destruct (value_path (selecting_tag op in_agg out_agg)).
Qed.

Lemma only_first_key_column_counts_witness :
  1 <= 1 ∧ 0 <= 1
  ∧ gdf_group_by_hash Reference.HashAggregate sum_op 1
      [keys_in 3 GDF_INT32; keys_in 7 (GDF_other 1)] (vals_in 3 GDF_INT32)
      [keys_out 3 GDF_INT32] (agg_out 3 GDF_INT32) true
      (memory [1; 1; 2] [4; 6; 10])
    = gdf_group_by_hash Reference.HashAggregate sum_op 0
        [keys_in 3 GDF_INT32] (set_size 99 (vals_in 3 GDF_INT32))
        [keys_out 3 GDF_INT32] (agg_out 3 GDF_INT32) true
        (memory [1; 1; 2] [4; 6; 10]).
Proof.
  assert (1 <= 1) as H1 by lia.
  assert (0 <= 1) as H2 by lia.
  split; [exact H1|]. split; [exact H2|].
  exact (only_first_key_column_counts Reference.HashAggregate sum_op 1 0
           (keys_in 3 GDF_INT32) [keys_in 7 (GDF_other 1)] [] (vals_in 3 GDF_INT32)
           99%nat [keys_out 3 GDF_INT32] (agg_out 3 GDF_INT32) true
           (memory [1; 1; 2] [4; 6; 10]) H1 H2).
Defined.

(** ** The AVG composition, on every path *)

Lemma avg_run_cases GroupbyHash NDEBUG ncols ins in_agg outs out_agg d :
  (NDEBUG = false ∧ ncols ≠ 1
   ∧ gdf_group_by_hash_avg GroupbyHash NDEBUG ncols ins in_agg outs out_agg d
     = (Halt AssertionFailed, d))
  ∨ ((NDEBUG = true ∨ ncols = 1) ∧ value_path (dtype in_agg) = None
     ∧ gdf_group_by_hash_avg GroupbyHash NDEBUG ncols ins in_agg outs out_agg d
       = (Done (mk_outputs GDF_UNSUPPORTED_DTYPE outs out_agg), d))
  ∨ ∃ sum_type,
      (NDEBUG = true ∨ ncols = 1) ∧ value_path (dtype in_agg) = Some sum_type
      ∧ composed GroupbyHash sum_type ncols ins in_agg outs out_agg d
          (result (gdf_group_by_hash_avg GroupbyHash NDEBUG ncols ins in_agg
                     outs out_agg) d)
          (final (gdf_group_by_hash_avg GroupbyHash NDEBUG ncols ins in_agg
                    outs out_agg) d).
Proof.
  unfold result, final. rewrite gdf_group_by_hash_avg_path. unfold bind, assert.
  destruct NDEBUG; simpl.
  - destruct (value_path (dtype in_agg)) as [sum_type|] eqn:Hs.
    + right; right. exists sum_type. split_and!; [by left|done|].
      apply multi_pass_avg_composed.
    + right; left. split_and!; [by left|done..].
  - destruct (decide (ncols = 1)) as [->|Hn].
    + simpl. destruct (value_path (dtype in_agg)) as [sum_type|] eqn:Hs.
      * right; right. exists sum_type. split_and!; [by right|done|].
        apply multi_pass_avg_composed.
      * right; left. split_and!; [by right|done..].
    + rewrite bool_decide_eq_false_2 by done. by left.
Qed.

(** The return code of [gdf_group_by_hash_avg] is a function of two
    tags alone: [GDF_SUCCESS] when the value column's and the output
    column's tags are both supported, [GDF_UNSUPPORTED_DTYPE]
    otherwise.  Neither the primitive's answers, nor the key column's
    tag, nor the number of columns can change it. *)
Theorem avg_code_from_tags
    GroupbyHash NDEBUG ncols ins in_agg outs out_agg d o :
  result (gdf_group_by_hash_avg GroupbyHash NDEBUG ncols ins in_agg outs out_agg) d
  = Done o →
  err o = if supported (dtype in_agg) && supported (dtype out_agg)
          then GDF_SUCCESS else GDF_UNSUPPORTED_DTYPE.
Proof.
  assert (∀ t, value_path t = None → supported t = false) as Hno
    by (by intros []).
  assert (∀ t x, value_path t = Some x → supported t = true) as Hyes
    by (by intros []).
  intros Hr.
  destruct (avg_run_cases GroupbyHash NDEBUG ncols ins in_agg outs out_agg d)
    as [(_ & _ & E)|[(_ & Hs & E)|(sum_type & _ & Hs & C)]].
  - unfold result in Hr. by rewrite E in Hr.
  - unfold result in Hr. rewrite E in Hr. injection Hr as <-.
    by rewrite (Hno _ Hs).
  - rewrite Hr in C. rewrite (Hyes _ _ Hs).
    inversion C as [| |? ? ? ? ? ? Ha|? ? ? ? ? ? ? Ha]; subst; simpl.
    + by rewrite (Hno _ Ha).
    + by rewrite (Hyes _ _ Ha).
Qed.

Lemma avg_code_from_tags_witness :
  err (mk_outputs GDF_SUCCESS [set_size 2 (keys_out 3 GDF_INT32)]
         (set_size 2 (agg_out 3 GDF_INT32)))
  = if supported (dtype (vals_in 3 GDF_INT32))
       && supported (dtype (agg_out 3 GDF_INT32))
    then GDF_SUCCESS else GDF_UNSUPPORTED_DTYPE.
Proof.
  refine (avg_code_from_tags (Reference.failing_at sum_op) false 1
            [keys_in 3 GDF_INT32] (vals_in 3 GDF_INT32)
            [keys_out 3 GDF_INT32] (agg_out 3 GDF_INT32)
            (memory [1; 1; 2] [4; 6; 10]) _ _).
  vm_compute. reflexivity.
Defined.

(** [gdf_group_by_hash_avg] stops at its assertion exactly when
    assertions are compiled in and [ncols] is not 1 (zero and negative
    counts included, unlike [gdf_group_by_hash]); nothing has happened
    on the device by then.  No other path of the call fails an
    assertion. *)
Theorem avg_assertion
    GroupbyHash NDEBUG ncols ins in_agg outs out_agg d :
  (result (gdf_group_by_hash_avg GroupbyHash NDEBUG ncols ins in_agg outs out_agg) d
   = Halt AssertionFailed
   ↔ NDEBUG = false ∧ ncols ≠ 1)
  ∧ (NDEBUG = false → ncols ≠ 1 →
     final (gdf_group_by_hash_avg GroupbyHash NDEBUG ncols ins in_agg outs out_agg) d
     = d).
Proof.
  destruct (avg_run_cases GroupbyHash NDEBUG ncols ins in_agg outs out_agg d)
    as [(HN & Hn & E)|[(HN & _ & E)|(sum_type & HN & _ & C)]];
    unfold result, final in *.
  - rewrite E. simpl. split; [done|]. done.
  - rewrite E. simpl. split; [|intros -> ?; by destruct HN].
    split; [done|]. intros [-> ?]. by destruct HN.
  - split; [|intros -> ?; by destruct HN].
    split; [|intros [-> ?]; by destruct HN].
    intros Hr. rewrite Hr in C.
    inversion C as [? ? P1| ? ? ? ? P1 P2| |]; subst.
    + inversion P1.
    + inversion P2.
Qed.

Lemma avg_assertion_witness :
  false = false ∧ 0 ≠ 1
  ∧ gdf_group_by_hash_avg Reference.HashAggregate false 0
      [keys_in 3 GDF_INT32] (vals_in 3 GDF_INT32)
      [keys_out 3 GDF_INT32] (agg_out 3 GDF_INT32) (memory [1; 1; 2] [4; 6; 10])
    = (Halt AssertionFailed, memory [1; 1; 2] [4; 6; 10]).
Proof.
  assert (false = false) as H1 by reflexivity.
  assert (0 ≠ 1) as H2 by discriminate.
  split; [exact H1|]. split; [exact H2|].
  destruct (avg_assertion Reference.HashAggregate false 0
              [keys_in 3 GDF_INT32] (vals_in 3 GDF_INT32)
              [keys_out 3 GDF_INT32] (agg_out 3 GDF_INT32)
              (memory [1; 1; 2] [4; 6; 10])) as [[_ Hr] Hf].
  apply injective_projections; [exact (Hr (conj H1 H2))|exact (Hf H1 H2)].
Defined.

Lemma pass_hash_events GroupbyHash op ncols ins in_agg outs out_agg sort d r d' :
  pass GroupbyHash op ncols ins in_agg outs out_agg sort d r d' →
  ∃ evs, trace d' = trace d ++ evs ∧ Forall (λ e, ∃ c rep, e = Hash c rep) evs.
Proof.
  intros P. destruct (pass_trace _ _ _ _ _ _ _ _ _ _ _ P) as (evs & Ht & H).
  exists evs. split; [done|]. apply Forall_forall. intros e He.
  destruct (H e He) as (c & rep & -> & _). eauto.
Qed.

(** A successful [gdf_group_by_hash_avg], failed passes included, calls
    [cudaMalloc] twice and [cudaFree] twice: the first pointer goes to
    the COUNT pass and the second to the SUM pass, the transform reads
    from both, and after the transform the call releases the first
    pointer and then the second.  Everything else in its trace is an
    invocation of the primitive. *)
Theorem avg_success_releases_its_blocks
    GroupbyHash NDEBUG ncols ins in_agg outs out_agg d o :
  result (gdf_group_by_hash_avg GroupbyHash NDEBUG ncols ins in_agg outs out_agg) d
  = Done o →
  err o = GDF_SUCCESS →
  ∃ p1 p2 n1 n2 ev1 ev2 st vt n,
    events (gdf_group_by_hash_avg GroupbyHash NDEBUG ncols ins in_agg
              outs out_agg) d
    = Malloc p1 n1 :: ev1
      ++ Malloc p2 n2 :: ev2
      ++ [Transform st vt p2 p1 (data out_agg) n; Free p1; Free p2]
    ∧ Forall (λ e, ∃ c rep, e = Hash c rep ∧ call_op c = count_op
                            ∧ out_agg_col c = p1) ev1
    ∧ Forall (λ e, ∃ c rep, e = Hash c rep ∧ call_op c = sum_op
                            ∧ out_agg_col c = p2) ev2.
Proof.
  intros Hr He.
  destruct (avg_success_events _ _ _ _ _ _ _ _ _ Hr He)
    as (st & vt & o1 & d2 & o2 & d4 & ev1 & ev2
        & _ & _ & P1 & P2 & Ht1 & Ht2 & _ & Hev & Hf).
  destruct (pass_keeps _ _ _ _ _ _ _ _ _ _ _ P1) as (D1 & _).
  destruct (pass_keeps _ _ _ _ _ _ _ _ _ _ _ P2) as (D2 & _).
  simpl in D1, D2. rewrite D1, D2 in Hev.
  exists (fresh_block d), (fresh_block d2). do 2 eexists.
  exists ev1, ev2, st, vt. eexists.
  split; [exact Hev|].
  split; apply Forall_forall; intros e Hin.
  - assert (e ∈ added (allocated (size out_agg) size_t d) d2) as Hin'
      by (by rewrite (added_app _ _ _ Ht1)).
    destruct (pass_hash_events _ _ _ _ _ _ _ _ _ _ _ P1) as (ev1' & Ht1' & F1).
    assert (ev1' = ev1) as -> by (rewrite Ht1 in Ht1'; by simplify_list_eq).
    destruct (proj1 (Forall_forall _ _) F1 e Hin) as (c & rep & ->).
    destruct (pass_call _ _ _ _ _ _ _ _ _ _ _ _ _ P1 Hin')
      as (in0 & ins' & out0 & outs' & gt & vt' & _ & _ & _ & _ & _ & -> & _).
    eexists _, _. split_and!; reflexivity.
  - assert (e ∈ added (allocated (size out_agg) st d2) d4) as Hin'
      by (by rewrite (added_app _ _ _ Ht2)).
    destruct (pass_hash_events _ _ _ _ _ _ _ _ _ _ _ P2) as (ev2' & Ht2' & F2).
    assert (ev2' = ev2) as -> by (rewrite Ht2 in Ht2'; by simplify_list_eq).
    destruct (proj1 (Forall_forall _ _) F2 e Hin) as (c & rep & ->).
    destruct (pass_call _ _ _ _ _ _ _ _ _ _ _ _ _ P2 Hin')
      as (in0 & ins' & out0 & outs' & gt & vt' & _ & _ & _ & _ & _ & -> & _).
    eexists _, _. split_and!; reflexivity.
Qed.

Lemma avg_success_releases_its_blocks_witness :
  ∃ p1 p2 n1 n2 ev1 ev2 st vt n,
    events (gdf_group_by_hash_avg (Reference.failing_at sum_op) false 1
              [keys_in 3 GDF_INT32] (vals_in 3 GDF_INT32)
              [keys_out 3 GDF_INT32] (agg_out 3 GDF_INT32))
           (memory [1; 1; 2] [4; 6; 10])
    = Malloc p1 n1 :: ev1
      ++ Malloc p2 n2 :: ev2
      ++ [Transform st vt p2 p1 (data (agg_out 3 GDF_INT32)) n; Free p1; Free p2]
    ∧ Forall (λ e, ∃ c rep, e = Hash c rep ∧ call_op c = count_op
                            ∧ out_agg_col c = p1) ev1
    ∧ Forall (λ e, ∃ c rep, e = Hash c rep ∧ call_op c = sum_op
                            ∧ out_agg_col c = p2) ev2.
Proof.
  refine (avg_success_releases_its_blocks (Reference.failing_at sum_op) false 1
            [keys_in 3 GDF_INT32] (vals_in 3 GDF_INT32)
            [keys_out 3 GDF_INT32] (agg_out 3 GDF_INT32)
            (memory [1; 1; 2] [4; 6; 10])
            (mk_outputs GDF_SUCCESS [set_size 2 (keys_out 3 GDF_INT32)]
               (set_size 2 (agg_out 3 GDF_INT32))) _ _).
  - vm_compute. reflexivity.
  - reflexivity.
Defined.

(** When the value column's tag is supported and the output column's
    is not, every [gdf_group_by_hash_avg] call that returns has called
    [cudaMalloc] twice and run both passes before it looks at the output
    tag, and returns [GDF_UNSUPPORTED_DTYPE] with the output column as it
    was: its trace holds no transform and no [cudaFree], for either
    pointer. *)
Theorem avg_unsupported_output_keeps_blocks
    GroupbyHash NDEBUG ncols ins in_agg outs out_agg d o :
  result (gdf_group_by_hash_avg GroupbyHash NDEBUG ncols ins in_agg outs out_agg) d
  = Done o →
  supported (dtype in_agg) = true →
  supported (dtype out_agg) = false →
  err o = GDF_UNSUPPORTED_DTYPE
  ∧ aggregation_out o = out_agg
  ∧ ∃ p1 p2 n1 n2 ev1 ev2,
      events (gdf_group_by_hash_avg GroupbyHash NDEBUG ncols ins in_agg
                outs out_agg) d
      = Malloc p1 n1 :: ev1 ++ Malloc p2 n2 :: ev2
      ∧ Forall (λ e, ∃ c rep, e = Hash c rep) (ev1 ++ ev2).
Proof.
  intros Hr Hin Hout.
  assert (value_path (dtype in_agg) ≠ None) as Hs
    by (destruct (dtype in_agg); done).
  assert (value_path (dtype out_agg) = None) as Ha
    by (destruct (dtype out_agg); done).
  destruct (avg_run_cases GroupbyHash NDEBUG ncols ins in_agg outs out_agg d)
    as [(_ & _ & E)|[(_ & Hs' & E)|(sum_type & _ & _ & C)]].
  - unfold result in Hr. by rewrite E in Hr.
  - done.
  - unfold events. rewrite Hr in C.
    destruct (final _ d) as [h' t'] eqn:Ef.
    inversion C as [| |o1 d2 o2 d4 P1 P2 _|? ? ? ? ? ? ? Ha']; subst;
      [|congruence].
    destruct (pass_hash_events _ _ _ _ _ _ _ _ _ _ _ P1) as (ev1 & Ht1 & F1).
    destruct (pass_hash_events _ _ _ _ _ _ _ _ _ _ _ P2) as (ev2 & Ht2 & F2).
    split_and!; [done..|].
    exists (fresh_block d), (fresh_block d2). do 2 eexists. exists ev1, ev2.
    split; [|by apply Forall_app].
    apply added_app.
    rewrite Ht2, allocated_trace, Ht1, allocated_trace.
    by rewrite <- !app_assoc.
Qed.

Lemma avg_unsupported_output_keeps_blocks_witness :
  supported (dtype (vals_in 3 GDF_INT32)) = true
  ∧ supported (dtype (agg_out 3 (GDF_other 9))) = false
  ∧ (err (mk_outputs GDF_UNSUPPORTED_DTYPE [set_size 2 (keys_out 3 GDF_INT32)]
            (agg_out 3 (GDF_other 9)))
     = GDF_UNSUPPORTED_DTYPE
     ∧ aggregation_out
         (mk_outputs GDF_UNSUPPORTED_DTYPE [set_size 2 (keys_out 3 GDF_INT32)]
            (agg_out 3 (GDF_other 9)))
       = agg_out 3 (GDF_other 9)
     ∧ ∃ p1 p2 n1 n2 ev1 ev2,
         events (gdf_group_by_hash_avg Reference.HashAggregate false 1
                   [keys_in 3 GDF_INT32] (vals_in 3 GDF_INT32)
                   [keys_out 3 GDF_INT32] (agg_out 3 (GDF_other 9)))
                (memory [1; 1; 2] [4; 6; 10])
         = Malloc p1 n1 :: ev1 ++ Malloc p2 n2 :: ev2
         ∧ Forall (λ e, ∃ c rep, e = Hash c rep) (ev1 ++ ev2)).
Proof.
  assert (supported (dtype (vals_in 3 GDF_INT32)) = true) as H1 by reflexivity.
  assert (supported (dtype (agg_out 3 (GDF_other 9))) = false) as H2 by reflexivity.
  split; [exact H1|]. split; [exact H2|].
  refine (avg_unsupported_output_keeps_blocks Reference.HashAggregate false 1
            [keys_in 3 GDF_INT32] (vals_in 3 GDF_INT32)
            [keys_out 3 GDF_INT32] (agg_out 3 (GDF_other 9))
            (memory [1; 1; 2] [4; 6; 10])
            (mk_outputs GDF_UNSUPPORTED_DTYPE [set_size 2 (keys_out 3 GDF_INT32)]
               (agg_out 3 (GDF_other 9))) _ H1 H2).
  vm_compute. reflexivity.
Defined.

(** An invocation in the trace of [multi_pass_avg] belongs to the COUNT
    pass, run on the device after the first allocation, or to the SUM
    pass, run after the second. *)
Lemma composed_invocation
    GroupbyHash sum_type ncols ins in_agg outs out_agg d r d' c rep :
  composed GroupbyHash sum_type ncols ins in_agg outs out_agg d r d' →
  Hash c rep ∈ added d d' →
  (∃ r1 d2,
     pass GroupbyHash count_op ncols ins in_agg outs
       (mk_column (fresh_block d) None (size out_agg) GDF_INT64) true
       (allocated (size out_agg) size_t d) r1 d2
     ∧ Hash c rep ∈ added (allocated (size out_agg) size_t d) d2)
  ∨ (∃ o1 d2 r2 d4,
       pass GroupbyHash count_op ncols ins in_agg outs
         (mk_column (fresh_block d) None (size out_agg) GDF_INT64) true
         (allocated (size out_agg) size_t d) (Done o1) d2
       ∧ pass GroupbyHash sum_op ncols ins in_agg (groupby_out o1)
           (mk_column (fresh_block d2) None (size out_agg) (gdf_col_type sum_type))
           true (allocated (size out_agg) sum_type d2) r2 d4
       ∧ Hash c rep ∈ added (allocated (size out_agg) sum_type d2) d4).
Proof.
  intros C Hin.
  inversion C as [f d2 P1|o1 d2 f d4 P1 P2|o1 d2 o2 d4 P1 P2
                 |o1 d2 o2 d4 avg_type P1 P2]; subst;
    destruct (pass_hash_events _ _ _ _ _ _ _ _ _ _ _ P1) as (ev1 & Ht1 & _);
    pose proof (added_app _ _ _ Ht1) as A1;
    try (destruct (pass_hash_events _ _ _ _ _ _ _ _ _ _ _ P2) as (ev2 & Ht2 & _);
         pose proof (added_app _ _ _ Ht2) as A2).
  - left. exists (Halt f), d'. split; [done|]. rewrite A1.
    rewrite (added_app d d' (Malloc (fresh_block d) _ :: ev1)) in Hin
      by (by rewrite Ht1, allocated_trace, <- app_assoc).
    by apply elem_of_cons in Hin as [?|?].
  - rewrite (added_app d d' (Malloc (fresh_block d) _ :: ev1
                               ++ Malloc (fresh_block d2) _ :: ev2)) in Hin
      by (by rewrite Ht2, allocated_trace, Ht1, allocated_trace, <- !app_assoc).
    apply elem_of_cons in Hin as [?|Hin]; [done|].
    apply elem_of_app in Hin as [Hin|Hin].
    + left. exists (Done o1), d2. by rewrite A1.
    + apply elem_of_cons in Hin as [?|Hin]; [done|].
      right. exists o1, d2, (Halt f), d'. by rewrite A2.
  - rewrite (added_app d d' (Malloc (fresh_block d) _ :: ev1
                               ++ Malloc (fresh_block d2) _ :: ev2)) in Hin
      by (by rewrite Ht2, allocated_trace, Ht1, allocated_trace, <- !app_assoc).
    apply elem_of_cons in Hin as [?|Hin]; [done|].
    apply elem_of_app in Hin as [Hin|Hin].
    + left. exists (Done o1), d2. by rewrite A1.
    + apply elem_of_cons in Hin as [?|Hin]; [done|].
      right. exists o1, d2, (Done o2), d'. by rewrite A2.
  - rewrite (added_app d _
               (Malloc (fresh_block d) _ :: ev1
                ++ Malloc (fresh_block d2) _ :: ev2
                ++ [Transform sum_type avg_type (data (aggregation_out o2))
                      (data (aggregation_out o1)) (data out_agg)
                      (size (aggregation_out o1));
                    Free (data (aggregation_out o1));
                    Free (data (aggregation_out o2))])) in Hin
      by (rewrite !released_trace, averaged_trace, Ht2, allocated_trace, Ht1,
            allocated_trace; by rewrite <- !app_assoc).
    apply hash_in_avg_events in Hin as [Hin|Hin].
    + left. exists (Done o1), d2. by rewrite A1.
    + right. exists o1, d2, (Done o2), d4. by rewrite A2.
Qed.

(** Every invocation [gdf_group_by_hash_avg] makes asks for sorted
    output, reads the keys through the pointer of the caller's first key
    column, at the integer type of that column's width, and the values
    through the pointer of the caller's value column, and writes the
    keys through the pointer of the caller's first output key column,
    in both passes.  A COUNT invocation is instantiated at [int64_t],
    whatever the value column holds; a SUM invocation at the value
    column's element type. *)
Theorem avg_invocations
    GroupbyHash NDEBUG ncols ins in_agg outs out_agg d c rep :
  Hash c rep
    ∈ events (gdf_group_by_hash_avg GroupbyHash NDEBUG ncols ins in_agg outs out_agg) d →
  sort_result c = true
  ∧ (∃ in0, head ins = Some in0
            ∧ in_group_col c = data in0
            ∧ equal_width_integer (dtype in0) = Some (call_groupby_type c))
  ∧ in_agg_col c = data in_agg
  ∧ (∃ out0, head outs = Some out0 ∧ out_group_col c = data out0)
  ∧ ((call_op c = count_op ∧ call_aggregation_type c = int64_t)
     ∨ (call_op c = sum_op
        ∧ value_path (dtype in_agg) = Some (call_aggregation_type c))).
Proof.
  intros Hin. unfold events in Hin.
  destruct (avg_run_cases GroupbyHash NDEBUG ncols ins in_agg outs out_agg d)
    as [(_ & _ & E)|[(_ & _ & E)|(sum_type & _ & Hs & C)]].
  - unfold final in Hin. rewrite E, added_refl in Hin. by apply elem_of_nil in Hin.
  - unfold final in Hin. rewrite E, added_refl in Hin. by apply elem_of_nil in Hin.
  - destruct (composed_invocation _ _ _ _ _ _ _ _ _ _ _ _ C Hin)
      as [(r1 & d2 & P1 & H1)|(o1 & d2 & r2 & d4 & P1 & P2 & H2)].
    + destruct (pass_call _ _ _ _ _ _ _ _ _ _ _ _ _ P1 H1)
        as (in0 & ins' & out0 & outs' & gt & vt & _ & -> & -> & Hk & Hv & -> & _).
      simpl in Hv. injection Hv as <-. simpl.
      split_and!; [done|by exists in0|done|by exists out0|by left].
    + destruct (pass_keeps _ _ _ _ _ _ _ _ _ _ _ P1) as (_ & _ & Hd & _).
      destruct (pass_call _ _ _ _ _ _ _ _ _ _ _ _ _ P2 H2)
        as (in0 & ins' & out0 & outs' & gt & vt & _ & -> & Ho & Hk & Hv & -> & _).
      simpl in Hv. simpl. rewrite Ho in Hd.
      destruct outs as [|out0' outs'']; [done|]. injection Hd as Hd0 _.
      split_and!; [done|by exists in0|done|by exists out0'|by right].
Qed.

Lemma avg_invocations_witness :
  Hash (invocation_to 5 int32_t int64_t count_op 3)
       (cudaSuccess [(VI 1, VI 2); (VI 2, VI 1)])
    ∈ events (gdf_group_by_hash_avg Reference.HashAggregate false 1
                [keys_in 3 GDF_INT32] (vals_in 3 GDF_FLOAT32)
                [keys_out 3 GDF_INT32] (agg_out 3 GDF_FLOAT32))
             (memory [1; 1; 2] [4; 6; 10])
  ∧ sort_result (invocation_to 5 int32_t int64_t count_op 3) = true
  ∧ (∃ in0, head [keys_in 3 GDF_INT32] = Some in0
            ∧ in_group_col (invocation_to 5 int32_t int64_t count_op 3) = data in0
            ∧ equal_width_integer (dtype in0)
              = Some (call_groupby_type (invocation_to 5 int32_t int64_t count_op 3)))
  ∧ in_agg_col (invocation_to 5 int32_t int64_t count_op 3)
    = data (vals_in 3 GDF_FLOAT32)
  ∧ (∃ out0, head [keys_out 3 GDF_INT32] = Some out0
             ∧ out_group_col (invocation_to 5 int32_t int64_t count_op 3) = data out0)
  ∧ ((call_op (invocation_to 5 int32_t int64_t count_op 3) = count_op
      ∧ call_aggregation_type (invocation_to 5 int32_t int64_t count_op 3) = int64_t)
     ∨ (call_op (invocation_to 5 int32_t int64_t count_op 3) = sum_op
        ∧ value_path (dtype (vals_in 3 GDF_FLOAT32))
          = Some (call_aggregation_type (invocation_to 5 int32_t int64_t count_op 3)))).
Proof.
  assert (Hash (invocation_to 5 int32_t int64_t count_op 3)
       (cudaSuccess [(VI 1, VI 2); (VI 2, VI 1)])
    ∈ events (gdf_group_by_hash_avg Reference.HashAggregate false 1
                [keys_in 3 GDF_INT32] (vals_in 3 GDF_FLOAT32)
                [keys_out 3 GDF_INT32] (agg_out 3 GDF_FLOAT32))
             (memory [1; 1; 2] [4; 6; 10])) as H
    by (vm_compute; do 2 constructor).
  split; [exact H|].
  exact (avg_invocations _ _ _ _ _ _ _ _ _ _ H).
Defined.

(** The successful run once more, with the columns it returns. *)
Lemma avg_success_shape GroupbyHash NDEBUG ncols ins in_agg outs out_agg d o :
  result (gdf_group_by_hash_avg GroupbyHash NDEBUG ncols ins in_agg outs out_agg) d
  = Done o →
  err o = GDF_SUCCESS →
  ∃ sum_type avg_type o1 d2 o2 d4 ev1 ev2,
    pass GroupbyHash count_op ncols ins in_agg outs
      (mk_column (fresh_block d) None (size out_agg) GDF_INT64) true
      (allocated (size out_agg) size_t d) (Done o1) d2
    ∧ pass GroupbyHash sum_op ncols ins in_agg (groupby_out o1)
        (mk_column (fresh_block d2) None (size out_agg) (gdf_col_type sum_type)) true
        (allocated (size out_agg) sum_type d2) (Done o2) d4
    ∧ added (allocated (size out_agg) size_t d) d2 = ev1
    ∧ added (allocated (size out_agg) sum_type d2) d4 = ev2
    ∧ o = mk_outputs GDF_SUCCESS (groupby_out o2)
            (set_size (size (aggregation_out o1)) out_agg)
    ∧ events (gdf_group_by_hash_avg GroupbyHash NDEBUG ncols ins in_agg outs out_agg) d
      = Malloc (fresh_block d) (size out_agg * sizeof size_t) :: ev1
        ++ Malloc (fresh_block d2) (size out_agg * sizeof sum_type) :: ev2
        ++ [Transform sum_type avg_type (data (aggregation_out o2))
              (data (aggregation_out o1)) (data out_agg)
              (size (aggregation_out o1));
            Free (data (aggregation_out o1)); Free (data (aggregation_out o2))]
    ∧ final (gdf_group_by_hash_avg GroupbyHash NDEBUG ncols ins in_agg outs out_agg) d
      = released (data (aggregation_out o2))
          (released (data (aggregation_out o1))
             (averaged sum_type avg_type out_agg
                (aggregation_out o1) (aggregation_out o2) d4)).
Proof.
  intros Hr He.
  destruct (avg_success_run _ _ _ _ _ _ _ _ _ Hr He)
    as (sum_type & avg_type & o1 & d2 & o2 & d4 & Hs & Ha & P1 & P2 & Ho & Hf).
  destruct (pass_hash_events _ _ _ _ _ _ _ _ _ _ _ P1) as (ev1 & Ht1 & _).
  destruct (pass_hash_events _ _ _ _ _ _ _ _ _ _ _ P2) as (ev2 & Ht2 & _).
  exists sum_type, avg_type, o1, d2, o2, d4, ev1, ev2.
  split_and!; try done; try (by apply added_app).
  unfold events. rewrite Hf. apply added_app.
  rewrite !released_trace, averaged_trace, Ht2, allocated_trace, Ht1, allocated_trace.
  by rewrite <- !app_assoc.
Qed.

(** After a successful [gdf_group_by_hash_avg] the size of the first
    output key column is the group count of the SUM pass, the pass that
    ran last, when that pass succeeded; the output aggregation column
    carries the COUNT pass's.  The two sizes agree only if the primitive
    reports the same number of groups to both passes. *)
Theorem avg_key_size_from_sum_pass
    GroupbyHash NDEBUG ncols ins in_agg outs out_agg d o c groups :
  result (gdf_group_by_hash_avg GroupbyHash NDEBUG ncols ins in_agg outs out_agg) d
  = Done o →
  err o = GDF_SUCCESS →
  Hash c (cudaSuccess groups)
    ∈ events (gdf_group_by_hash_avg GroupbyHash NDEBUG ncols ins in_agg outs out_agg) d →
  call_op c = sum_op →
  size <$> head (groupby_out o) = Some (out_size groups).
Proof.
  intros Hr He Hin Hop.
  destruct (avg_success_shape _ _ _ _ _ _ _ _ _ Hr He)
    as (sum_type & avg_type & o1 & d2 & o2 & d4 & ev1 & ev2
        & P1 & P2 & A1 & A2 & -> & Hev & _).
  rewrite Hev in Hin. simpl.
  apply hash_in_avg_events in Hin as [Hin|Hin]; rewrite <- ?A1, <- ?A2 in Hin.
  - destruct (pass_call _ _ _ _ _ _ _ _ _ _ _ _ _ P1 Hin)
      as (? & ? & ? & ? & ? & ? & _ & _ & _ & _ & _ & -> & _). done.
  - destruct (pass_trace _ _ _ _ _ _ _ _ _ _ _ P2) as (ev & Ht & H2).
    rewrite (added_app _ _ _ Ht) in Hin.
    destruct (H2 _ Hin)
      as (c' & rep & [= <- <-] & _ & _ & _ & out0 & outs' & _ & _ & _ & Ho2).
    by injection Ho2 as ->.
Qed.

Lemma avg_key_size_from_sum_pass_witness :
  Hash (invocation_to 6 int32_t int32_t sum_op 3)
       (cudaSuccess [(VI 1, VI 10); (VI 2, VI 10)])
    ∈ events (gdf_group_by_hash_avg (Reference.failing_at count_op) false 1
                [keys_in 3 GDF_INT32] (vals_in 3 GDF_INT32)
                [keys_out 3 GDF_INT32] (agg_out 3 GDF_INT32))
             (memory [1; 1; 2] [4; 6; 10])
  ∧ size <$> head [set_size 2 (keys_out 3 GDF_INT32)]
    = Some (out_size [(VI 1, VI 10); (VI 2, VI 10)]).
Proof.
  assert (Hash (invocation_to 6 int32_t int32_t sum_op 3)
       (cudaSuccess [(VI 1, VI 10); (VI 2, VI 10)])
    ∈ events (gdf_group_by_hash_avg (Reference.failing_at count_op) false 1
                [keys_in 3 GDF_INT32] (vals_in 3 GDF_INT32)
                [keys_out 3 GDF_INT32] (agg_out 3 GDF_INT32))
             (memory [1; 1; 2] [4; 6; 10])) as H
    by (vm_compute; do 4 constructor).
  split; [exact H|].
  refine (avg_key_size_from_sum_pass (Reference.failing_at count_op) false 1
            [keys_in 3 GDF_INT32] (vals_in 3 GDF_INT32)
            [keys_out 3 GDF_INT32] (agg_out 3 GDF_INT32)
            (memory [1; 1; 2] [4; 6; 10])
            (mk_outputs GDF_SUCCESS [set_size 2 (keys_out 3 GDF_INT32)]
               (agg_out 3 GDF_INT32)) _ _ _ _ H _).
  - vm_compute. reflexivity.
  - reflexivity.
  - reflexivity.
Defined.

(** When the COUNT pass of a successful [gdf_group_by_hash_avg] did not
    succeed (the primitive failed, or the pass never reached it), the
    output aggregation column comes back exactly as it was passed in:
    its size field still holds the capacity, not a group count. *)
Theorem avg_size_without_count
    GroupbyHash NDEBUG ncols ins in_agg outs out_agg d o :
  result (gdf_group_by_hash_avg GroupbyHash NDEBUG ncols ins in_agg outs out_agg) d
  = Done o →
  err o = GDF_SUCCESS →
  (∀ c groups,
     Hash c (cudaSuccess groups)
       ∈ events (gdf_group_by_hash_avg GroupbyHash NDEBUG ncols ins in_agg
                   outs out_agg) d →
     call_op c ≠ count_op) →
  aggregation_out o = out_agg.
Proof.
  intros Hr He Hno.
  destruct (avg_success_shape _ _ _ _ _ _ _ _ _ Hr He)
    as (sum_type & avg_type & o1 & d2 & o2 & d4 & ev1 & ev2
        & P1 & P2 & A1 & A2 & -> & Hev & _).
  simpl.
  assert (size (aggregation_out o1) = size out_agg) as ->; [|by destruct out_agg].
  destruct (pass_added _ _ _ _ _ _ _ _ _ _ _ P1)
    as [(_ & _ & _ & Ho)|[(c & keys & vals & _ & _ & [= ->])
                         |(c & groups & out0 & outs' & Hd & Hop & _)]].
  - by destruct (Ho o1 eq_refl) as [_ ->].
  - done.
  - exfalso. apply (Hno c groups); [|done].
    rewrite Hev, <- A1, Hd, added_log. right. by left.
Qed.

Lemma avg_size_without_count_witness :
  aggregation_out
    (mk_outputs GDF_SUCCESS [set_size 2 (keys_out 3 GDF_INT32)] (agg_out 3 GDF_INT32))
  = agg_out 3 GDF_INT32.
Proof.
  refine (avg_size_without_count (Reference.failing_at count_op) false 1
            [keys_in 3 GDF_INT32] (vals_in 3 GDF_INT32)
            [keys_out 3 GDF_INT32] (agg_out 3 GDF_INT32)
            (memory [1; 1; 2] [4; 6; 10]) _ _ _ _).
  - vm_compute. reflexivity.
  - reflexivity.
  - intros c groups Hin Hc.
    assert (events (gdf_group_by_hash_avg (Reference.failing_at count_op) false 1
                      [keys_in 3 GDF_INT32] (vals_in 3 GDF_INT32)
                      [keys_out 3 GDF_INT32] (agg_out 3 GDF_INT32))
                   (memory [1; 1; 2] [4; 6; 10])
            = [Malloc 5 24;
               Hash (invocation_to 5 int32_t int64_t count_op 3) (cudaFailure [] []);
               Malloc 6 12;
               Hash (invocation_to 6 int32_t int32_t sum_op 3)
                    (cudaSuccess [(VI 1, VI 10); (VI 2, VI 10)]);
               Transform int32_t int32_t 6 5 4 3;
               Free 5; Free 6]) as E by (vm_compute; reflexivity).
    rewrite E in Hin.
    repeat (apply elem_of_cons in Hin as [Hin|Hin];
            [try discriminate; injection Hin as -> ->; discriminate|]).
    by apply elem_of_nil in Hin.
Defined.

(** ** [compute_average] *)



(** ** AVG when no pass reaches the primitive *)




(** ** The lambda of [compute_average] *)

(** Integral SUM and output types, the output at least as wide as the
    SUM type, and a count the output type can hold: the average is
    exactly the quotient of sum by count, rounded toward zero. *)
Theorem average_exact_in_wide_output ts tv st vt s n :
  value_path ts = Some st →
  value_path tv = Some vt →
  is_floating st = false →
  is_floating vt = false →
  bits st <= bits vt →
  min_int st <= s <= max_int st →
  1 <= n <= max_int vt →
  average_cell st vt (Some (VI s)) (Some (VI n)) = Some (VI (Z.quot s n)).
Proof.
  intros Hs Hv Fs Fv Hb Hr Hn.
  rewrite (average_cell_integral ts tv st vt s n) by done.
  rewrite (wrap_in_range st s) by done.
  assert (min_int vt <= min_int st ∧ max_int st <= max_int vt
          ∧ min_int st <= 0 <= max_int st) as (Hlo & Hhi & H0)
    by (destruct ts, tv; simplify_eq/=; unfold min_int, max_int; simpl;
        simpl in Hb; lia).
  pose proof (quot_between (min_int st) (max_int st) s n H0 Hr ltac:(lia)).
  by rewrite wrap_in_range by lia.
Qed.

Lemma average_exact_in_wide_output_witness :
  bits int16_t <= bits int32_t
  ∧ min_int int16_t <= -7 <= max_int int16_t
  ∧ 1 <= 2 <= max_int int32_t
  ∧ average_cell int16_t int32_t (Some (VI (-7))) (Some (VI 2)) = Some (VI (-3)).
Proof.
  assert (bits int16_t <= bits int32_t) as H1 by (vm_compute; discriminate).
  assert (min_int int16_t <= -7 <= max_int int16_t) as H2
    by (vm_compute; split; discriminate).
  assert (1 <= 2 <= max_int int32_t) as H3 by (vm_compute; split; discriminate).
  split; [exact H1|]. split; [exact H2|]. split; [exact H3|].
  exact (average_exact_in_wide_output GDF_INT16 GDF_INT32 int16_t int32_t (-7) 2
           eq_refl eq_refl eq_refl eq_refl H1 H2 H3).
Defined.

Lemma quot_overflow lo hi a c :
  lo < 0 → hi = - lo - 1 → lo <= a <= hi → lo <= c <= hi → c ≠ 0 →
  ¬ (lo <= Z.quot a c <= hi) ↔ a = lo ∧ c = -1.
Proof.
  intros Hlo Hhi Ha Hc Hz. split.
  - intros Hout. destruct (Z.le_gt_cases 1 c) as [Hp|Hn].
    { pose proof (quot_between lo hi a c ltac:(lia) Ha Hp). lia. }
    assert (Z.quot a c = - Z.quot a (- c)) as E
      by (pose proof (Z.quot_opp_r a c Hz); lia).
    pose proof (quot_between lo hi a (- c) ltac:(lia) Ha ltac:(lia)) as Hb.
    destruct (Z.eq_dec c (-1)) as [->|Hc1].
    + change (- -1) with 1 in *. rewrite Z.quot_1_r in *. lia.
    + exfalso. apply Hout. rewrite E.
      destruct (Z.le_gt_cases 0 a) as [Hpa|Hna].
      * pose proof (Z.quot_pos a (- c) Hpa ltac:(lia)). lia.
      * pose proof (Z.quot_opp_l a (- c) ltac:(lia)) as Ho.
        pose proof (Z.quot_lt (- a) (- c) ltac:(lia) ltac:(lia)). lia.
  - intros [-> ->]. pose proof (Z.quot_opp_r lo 1 ltac:(lia)) as E.
    rewrite Z.quot_1_r in E. change (Z.opp 1) with (-1) in E. rewrite E. lia.
Qed.

(** For integral SUM and output types the element written by the
    transform is undefined in exactly two cases: the count, converted to
    the output type, is zero; or it is -1 and the sum is the least value
    of the type the division is evaluated in. *)
Theorem average_undefined_iff ts tv st vt s n :
  value_path ts = Some st →
  value_path tv = Some vt →
  is_floating st = false →
  is_floating vt = false →
  average_cell st vt (Some (VI s)) (Some (VI n)) = None
  ↔ wrap vt (wrap size_t n) = 0
    ∨ (wrap st s = min_int (common_type st vt) ∧ wrap vt (wrap size_t n) = -1).
Proof.
  intros Hs Hv Fs Fv.
  set (t := common_type st vt).
  set (c := wrap vt (wrap size_t n)).
  set (a := wrap st s).
  pose proof (wrap_range st s) as Ra. fold a in Ra.
  pose proof (wrap_range vt (wrap size_t n)) as Rc. fold c in Rc.
  assert (is_floating t = false
          ∧ (min_int t <= min_int st ∧ max_int st <= max_int t)
          ∧ (min_int t <= min_int vt ∧ max_int vt <= max_int t)
          ∧ min_int t < 0 ∧ max_int t = - min_int t - 1)
    as (Ft & Hst & Hvt & Hneg & Hsym).
  { subst t. destruct ts, tv; simplify_eq/=; try done;
      unfold min_int, max_int; simpl; lia. }
  unfold average_cell, average_op; simpl. rewrite Fs; simpl.
  fold t a. rewrite Fv; simpl. fold c. rewrite Ft; simpl.
  rewrite (wrap_in_range t a), (wrap_in_range t c) by lia.
  rewrite Ft. destruct (decide (c = 0)) as [Hc|Hc]; simpl.
  { split; [by left|done]. }
  pose proof (quot_overflow (min_int t) (max_int t) a c Hneg Hsym
                ltac:(lia) ltac:(lia) Hc) as Ho.
  destruct (decide (min_int t <= Z.quot a c <= max_int t)) as [Hq|Hq]; simpl.
  - rewrite Fv. split; [done|]. intros [?|Hmin]; [done|].
    apply Ho in Hmin. done.
  - split; [|done]. intros _. right. by apply Ho.
Qed.

Lemma average_undefined_iff_witness :
  wrap int8_t (wrap size_t 512) = 0
  ∧ average_cell int32_t int8_t (Some (VI 1000)) (Some (VI 512)) = None.
Proof.
  assert (wrap int8_t (wrap size_t 512) = 0) as H by reflexivity.
  split; [exact H|].
  exact (proj2 (average_undefined_iff GDF_INT32 GDF_INT8 int32_t int8_t 1000 512
                  eq_refl eq_refl eq_refl eq_refl) (or_introl H)).
Defined.

Lemma convert_to_floating t v :
  is_floating t = true → ∃ f, convert t v = Some (of_float t f).
Proof.
  intros Ft. destruct v as [z|f|f]; unfold convert; rewrite ?Ft.
  - eauto.
  - destruct (decide (type_of (VF32 f) = Some t)) as [[= <-]|]; eauto.
  - destruct (decide (type_of (VF64 f) = Some t)) as [[= <-]|]; eauto.
Qed.

Lemma divide_floating t x y :
  is_floating t = true → ∃ q, divide t (of_float t x) (of_float t y) = Some (of_float t q).
Proof. destruct t; try done; intros _; simpl; eauto. Qed.

(** With a floating output type the transform never leaves an
    indeterminate element where it could read the sum and the count:
    the division is a floating division, and a zero count gives an
    infinity or a NaN, not an undefined operation. *)
Theorem average_defined_for_floating_output st vt sum count x y :
  is_floating vt = true →
  load st sum = Some x →
  load size_t count = Some y →
  is_Some (average_cell st vt sum count).
Proof.
  intros Fv Hx Hy. unfold average_cell, average_op. rewrite Hx, Hy. simpl.
  assert (is_floating (common_type st vt) = true) as Ft
    by (destruct st, vt; done).
  destruct (convert_to_floating vt y Fv) as (fc & ->). simpl.
  destruct (convert_to_floating (common_type st vt) x Ft) as (fa & ->). simpl.
  destruct (convert_to_floating (common_type st vt) (of_float vt fc) Ft) as (fb & ->).
  simpl.
  destruct (divide_floating (common_type st vt) fa fb Ft) as (q & ->). simpl.
  destruct (convert_to_floating vt (of_float (common_type st vt) q) Fv) as (r & ->).
  done.
Qed.

Lemma average_defined_for_floating_output_witness :
  is_floating double = true
  ∧ load int32_t (Some (VI 7)) = Some (VI 7)
  ∧ load size_t (Some (VI 0)) = Some (VI 0)
  ∧ is_Some (average_cell int32_t double (Some (VI 7)) (Some (VI 0))).
Proof.
  assert (is_floating double = true) as H1 by reflexivity.
  assert (load int32_t (Some (VI 7)) = Some (VI 7)) as H2 by reflexivity.
  assert (load size_t (Some (VI 0)) = Some (VI 0)) as H3 by reflexivity.
  split; [exact H1|]. split; [exact H2|]. split; [exact H3|].
  exact (average_defined_for_floating_output int32_t double
           (Some (VI 7)) (Some (VI 0)) (VI 7) (VI 0) H1 H2 H3).
Defined.

(** ** [create_gdf_column] *)

(** The column [create_gdf_column] returns carries the size it was asked
    for, no validity mask, and a tag that keeps the element type's width
    and kind but not its signedness.  As the output column of a COUNT
    pass, which is how [multi_pass_avg] uses its [size_t] column, it is
    never rejected by the second dispatch level: the pass is
    instantiated at the signed or floating type of that width, so a
    [size_t] column is one of [int64_t] to the pass. *)
Theorem created_column_dispatch GroupbyHash col_type n d :
  ∃ c t,
    result (create_gdf_column col_type n) d = Done c
    ∧ size c = n
    ∧ valid c = None
    ∧ bits t = bits col_type
    ∧ is_floating t = is_floating col_type
    ∧ is_signed t = true
    ∧ ∀ gt ncols ins in_agg outs sort,
        dispatch_aggregation_type GroupbyHash gt count_op ncols ins in_agg outs c sort
        = dispatched_groupby GroupbyHash gt t count_op ncols ins in_agg outs c sort.
Proof.
  eexists.
  assert (∃ t, value_path (gdf_col_type col_type) = Some t
               ∧ bits t = bits col_type
               ∧ is_floating t = is_floating col_type
               ∧ is_signed t = true) as (t & Ht & Hb & Hf & Hs)
    by (destruct col_type; simpl; eauto).
  exists t. split_and!; [reflexivity|done..|].
  intros gt ncols ins in_agg outs sort.
  rewrite dispatch_aggregation_type_path. simpl. by rewrite Ht.
Qed.
